(** * Pawsitive dog-care web application: the triage / assessment core

    A shallow embedding of
    - the emergency assessment component (symptom catalogue, rule-based
      urgency, wizard state, recommendation mapper),
    - the Gemini orchestrator of the server (analyzeSymptoms,
      analyzeHealthPhoto, performEmergencyAssessment),
    - the AI routes of the server (age of the dog, HTTP replies),
    - the batch photo analysis of the health entry dialog,
    followed by the properties established about them.

    Conventions.  A React state cell is a record field and a handler is a
    function from the state before the event to the state after it (every
    click is handled after the previous render, so a handler reads the state
    left by the previous one).  A promise that may reject is a value of
    [result]; an awaited external call (model, storage, network) is a
    parameter holding what the call produced.  JavaScript strings are byte
    strings. *)

From Stdlib Require Import List String Ascii Bool Arith ZArith Lia.
From Stdlib Require Import DecimalString.
Import ListNotations.
Open Scope string_scope.
Open Scope list_scope.
Set Warnings "-register-all".

(** ** JSON values, as produced by JSON.parse *)

(** A number keeps its lexeme: no claim depends on its floating value. *)
Inductive json : Type :=
| JNull
| JBool (b : bool)
| JNumber (lexeme : string)
| JString (s : string)
| JArray (items : list json)
| JObject (members : list (string * json)).

(** Property read [o.k] on an object built by JSON.parse: a repeated key keeps
    the last value, an absent key reads undefined. *)
Fixpoint get_field (k : string) (members : list (string * json)) : option json :=
  match members with
  | [] => None
  | (k', v) :: rest =>
      match get_field k rest with
      | Some w => Some w
      | None => if String.eqb k k' then Some v else None
      end
  end.

(** ** Promises that may reject *)

Inductive result (E A : Type) : Type :=
| Ok (a : A)
| Err (e : E).
Arguments Ok {E A} a.
Arguments Err {E A} e.

Definition bind {E A B : Type} (m : result E A) (k : A -> result E B) : result E B :=
  match m with
  | Ok a => k a
  | Err e => Err e
  end.

(** [try { body } catch (e) { handler e }]. *)
Definition try_catch {E E' A : Type} (body : result E A) (handler : E -> result E' A)
  : result E' A :=
  match body with
  | Ok a => Ok a
  | Err e => handler e
  end.

Notation "x <- m ;; k" := (bind m (fun x => k))
  (at level 61, m at next level, right associativity).

(** ** Notifications shown through the useToast hook *)

Inductive ToastVariant : Type := plain | destructive.

Record Toast : Type := mkToast {
  toastTitle : string;
  toastDescription : string;
  toastVariant : ToastVariant
}.

(** ** JSON.parse *)

Module Json.

Local Open Scope char_scope.

Definition quote : ascii := "034".

(** White space of the JSON grammar. *)
Definition is_json_ws (c : ascii) : bool :=
  (c =? " ") || (c =? "009") || (c =? "010") || (c =? "013").

Fixpoint skip_ws (l : list ascii) : list ascii :=
  match l with
  | c :: r => if is_json_ws c then skip_ws r else l
  | [] => []
  end.

Definition is_digit (c : ascii) : bool :=
  (48 <=? nat_of_ascii c)%nat && (nat_of_ascii c <=? 57)%nat.

Fixpoint take_digits (l : list ascii) : list ascii * list ascii :=
  match l with
  | c :: r =>
      if is_digit c then let (d, r') := take_digits r in (c :: d, r') else ([], l)
  | [] => ([], [])
  end.

Definition parse_int (l : list ascii) : option (list ascii * list ascii) :=
  match l with
  | c :: r =>
      if c =? "0" then Some ([c], r)
      else if is_digit c then let (d, r') := take_digits r in Some (c :: d, r')
      else None
  | [] => None
  end.

Definition parse_frac (l : list ascii) : option (list ascii * list ascii) :=
  match l with
  | c :: r =>
      if c =? "." then
        match take_digits r with
        | ([], _) => None
        | (d, r') => Some (c :: d, r')
        end
      else Some ([], l)
  | [] => Some ([], l)
  end.

Definition parse_exp (l : list ascii) : option (list ascii * list ascii) :=
  match l with
  | c :: r =>
      if (c =? "e") || (c =? "E") then
        let (sign, r1) :=
          match r with
          | s :: r' => if (s =? "+") || (s =? "-") then ([s], r') else ([], r)
          | [] => ([], r)
          end in
        match take_digits r1 with
        | ([], _) => None
        | (d, r') => Some (c :: sign ++ d, r')
        end
      else Some ([], l)
  | [] => Some ([], l)
  end.

Definition parse_number (l : list ascii) : option (json * list ascii) :=
  let (sign, r0) :=
    match l with
    | c :: r => if c =? "-" then ([c], r) else ([], l)
    | [] => ([], l)
    end in
  match parse_int r0 with
  | None => None
  | Some (i, r1) =>
      match parse_frac r1 with
      | None => None
      | Some (f, r2) =>
          match parse_exp r2 with
          | None => None
          | Some (e, r3) =>
              Some (JNumber (string_of_list_ascii (sign ++ i ++ f ++ e)), r3)
          end
      end
  end.

Fixpoint strip_prefix (p l : list ascii) : option (list ascii) :=
  match p, l with
  | [], _ => Some l
  | a :: p', b :: l' => if a =? b then strip_prefix p' l' else None
  | _ :: _, [] => None
  end.

Definition hex_val (c : ascii) : option nat :=
  let n := nat_of_ascii c in
  if (48 <=? n)%nat && (n <=? 57)%nat then Some (n - 48)%nat
  else if (65 <=? n)%nat && (n <=? 70)%nat then Some (n - 55)%nat
  else if (97 <=? n)%nat && (n <=? 102)%nat then Some (n - 87)%nat
  else None.

Definition code_point (h1 h2 h3 h4 : ascii) : option nat :=
  match hex_val h1, hex_val h2, hex_val h3, hex_val h4 with
  | Some a, Some b, Some c, Some d => Some (((a * 16 + b) * 16 + c) * 16 + d)%nat
  | _, _, _, _ => None
  end.

(** The bytes of a code point of the basic plane; a surrogate half has no
    byte form and is left out of the model. *)
Definition utf8 (cp : nat) : option (list ascii) :=
  if (cp <? 128)%nat then Some [ascii_of_nat cp]
  else if (cp <? 2048)%nat then
    Some [ascii_of_nat (192 + cp / 64); ascii_of_nat (128 + cp mod 64)]
  else if (216 * 256 <=? cp)%nat && (cp <? 224 * 256)%nat then None
  else
    Some [ascii_of_nat (224 + cp / 4096);
          ascii_of_nat (128 + (cp / 64) mod 64);
          ascii_of_nat (128 + cp mod 64)].

Definition unescape (e : ascii) : option ascii :=
  if e =? quote then Some quote
  else if e =? "\" then Some "\"
  else if e =? "/" then Some "/"
  else if e =? "b" then Some "008"
  else if e =? "f" then Some "012"
  else if e =? "n" then Some "010"
  else if e =? "r" then Some "013"
  else if e =? "t" then Some "009"
  else None.

(** The characters of a string after its opening quote, up to the closing
    one; [acc] holds the bytes read so far, last first. *)
Fixpoint parse_chars (l acc : list ascii) : option (list ascii * list ascii) :=
  match l with
  | [] => None
  | c :: r =>
      if c =? quote then Some (rev acc, r)
      else if c =? "\" then
        match r with
        | [] => None
        | e :: r1 =>
            if e =? "u" then
              match r1 with
              | h1 :: h2 :: h3 :: h4 :: r2 =>
                  match code_point h1 h2 h3 h4 with
                  | Some cp =>
                      match utf8 cp with
                      | Some bs => parse_chars r2 (rev bs ++ acc)
                      | None => None
                      end
                  | None => None
                  end
              | _ => None
              end
            else
              match unescape e with
              | Some c' => parse_chars r1 (c' :: acc)
              | None => None
              end
        end
      else if (nat_of_ascii c <? 32)%nat then None
      else parse_chars r (c :: acc)
  end.

Definition parse_string (l : list ascii) : option (string * list ascii) :=
  match l with
  | c :: r =>
      if c =? quote then
        match parse_chars r [] with
        | Some (s, r') => Some (string_of_list_ascii s, r')
        | None => None
        end
      else None
  | [] => None
  end.

Definition lit_true : list ascii := ["t"; "r"; "u"; "e"].
Definition lit_false : list ascii := ["f"; "a"; "l"; "s"; "e"].
Definition lit_null : list ascii := ["n"; "u"; "l"; "l"].

(** Recursive descent over the grammar of RFC 8259.  The fuel bounds the
    number of nested and sibling values; [JSON_parse] gives more of it than
    the text has characters. *)
Fixpoint parse_value (fuel : nat) (l : list ascii) {struct fuel}
  : option (json * list ascii) :=
  match fuel with
  | O => None
  | S f =>
      match skip_ws l with
      | [] => None
      | c :: r =>
          if c =? "[" then
            match skip_ws r with
            | d :: r' =>
                if d =? "]" then Some (JArray [], r') else parse_elements f r []
            | [] => None
            end
          else if c =? "{" then
            match skip_ws r with
            | d :: r' =>
                if d =? "}" then Some (JObject [], r') else parse_members f r []
            | [] => None
            end
          else if c =? quote then
            match parse_string (c :: r) with
            | Some (s, r') => Some (JString s, r')
            | None => None
            end
          else if c =? "t" then
            match strip_prefix lit_true (c :: r) with
            | Some r' => Some (JBool true, r')
            | None => None
            end
          else if c =? "f" then
            match strip_prefix lit_false (c :: r) with
            | Some r' => Some (JBool false, r')
            | None => None
            end
          else if c =? "n" then
            match strip_prefix lit_null (c :: r) with
            | Some r' => Some (JNull, r')
            | None => None
            end
          else parse_number (c :: r)
      end
  end
with parse_elements (fuel : nat) (l : list ascii) (acc : list json) {struct fuel}
  : option (json * list ascii) :=
  match fuel with
  | O => None
  | S f =>
      match parse_value f l with
      | Some (v, r) =>
          match skip_ws r with
          | d :: r' =>
              if d =? "," then parse_elements f r' (v :: acc)
              else if d =? "]" then Some (JArray (rev (v :: acc)), r')
              else None
          | [] => None
          end
      | None => None
      end
  end
with parse_members (fuel : nat) (l : list ascii) (acc : list (string * json))
  {struct fuel} : option (json * list ascii) :=
  match fuel with
  | O => None
  | S f =>
      match parse_string (skip_ws l) with
      | Some (k, r) =>
          match skip_ws r with
          | d :: r1 =>
              if d =? ":" then
                match parse_value f r1 with
                | Some (v, r2) =>
                    match skip_ws r2 with
                    | e :: r3 =>
                        if e =? "," then parse_members f r3 ((k, v) :: acc)
                        else if e =? "}" then Some (JObject (rev ((k, v) :: acc)), r3)
                        else None
                    | [] => None
                    end
                | None => None
                end
              else None
          | [] => None
          end
      | None => None
      end
  end.

(** [JSON.parse(text)]; [None] when it throws a SyntaxError. *)
Definition JSON_parse (text : string) : option json :=
  let l := list_ascii_of_string text in
  match parse_value (2 * List.length l + 2) l with
  | Some (v, r) =>
      match skip_ws r with
      | [] => Some v
      | _ :: _ => None
      end
  | None => None
  end.

(** White space removed by String.prototype.trim, on ASCII text. *)
Definition is_js_ws (c : ascii) : bool :=
  (c =? " ") || (c =? "009") || (c =? "010") || (c =? "011") || (c =? "012")
  || (c =? "013").

(** [text.trim() === ""] (the empty string included). *)
Definition trim_is_empty (text : string) : bool :=
  forallb is_js_ws (list_ascii_of_string text).

End Json.

(** ** The Gemini orchestrator of the server *)

Module Gemini.

Import Json.

Record DogInfo : Type := mkDogInfo {
  breed : string;
  age : option Z;
  weight : option string;
  medicalHistory : list string
}.

(** The argument of performEmergencyAssessment.  [vitalSigns] lists the
    entries of the object sent by the client. *)
Record EmergencyData : Type := mkEmergencyData {
  symptoms : list string;
  duration : string;
  severity : string;
  dogInfo : DogInfo;
  currentBehavior : string;
  vitalSigns : list (string * string)
}.

(** The argument of analyzeSymptoms. *)
Record SymptomData : Type := mkSymptomData {
  sd_type : string;
  sd_title : string;
  sd_description : option string;
  sd_severity : option string;
  sd_breed : string;
  sd_age : option Z;
  sd_weight : option string
}.

(** What each function sends to [ai.models.generateContent].  The system
    instruction, the prompt and the response schema are fixed texts filled
    with these data, so the call is a function of them. *)
Inductive Request : Type :=
| SymptomsRequest (symptomData : SymptomData)
| PhotoRequest (photoBuffer mimeType : string) (context : option string)
| EmergencyRequest (assessmentData : EmergencyData).

(** What awaiting the call produced: a rejection, or a response whose
    [text] may be undefined. *)
Inductive GenerateOutcome : Type :=
| GenerateRejects
| GenerateResolves (text : option string).

Definition Model : Type := Request -> GenerateOutcome.

(** The errors thrown inside the outer try block. *)
Inductive Cause : Type :=
| ModelCallFailed
| EmptyResponse
| InvalidJSON.

(** The errors the three functions reject with: the message names the
    function and embeds the cause. *)
Inductive Failure : Type :=
| FailedToAnalyzeSymptoms (cause : Cause)
| FailedToAnalyzePhoto (cause : Cause)
| FailedToPerformEmergencyAssessment (cause : Cause).

Definition await_generateContent (o : GenerateOutcome) : result Cause (option string) :=
  match o with
  | GenerateRejects => Err ModelCallFailed
  | GenerateResolves text => Ok text
  end.

Definition JSON_parse_or_throw (rawJson : string) : result unit json :=
  match JSON_parse rawJson with
  | Some v => Ok v
  | None => Err tt
  end.

(** The Age line of the prompts: [age ? age + " years" : "unknown"]; the
    number 0 is falsy. *)
Definition promptAge (age : option Z) : string :=
  match age with
  | Some a =>
      if (a =? 0)%Z then "unknown"
      else NilZero.string_of_int (Z.to_int a) ++ " years"
  | None => "unknown"
  end.

Definition analyzeSymptoms (generateContent : Model) (symptomData : SymptomData)
  : result Failure json :=
  try_catch
    (rawJson <- await_generateContent (generateContent (SymptomsRequest symptomData)) ;;
     match rawJson with
     | None => Err EmptyResponse
     | Some text =>
         if trim_is_empty text then Err EmptyResponse
         else try_catch (JSON_parse_or_throw text) (fun parseError => Err InvalidJSON)
     end)
    (fun error => Err (FailedToAnalyzeSymptoms error)).

Definition analyzeHealthPhoto (generateContent : Model) (photoBuffer mimeType : string)
  (context : option string) : result Failure json :=
  try_catch
    (rawJson <- await_generateContent
                  (generateContent (PhotoRequest photoBuffer mimeType context)) ;;
     match rawJson with
     | None => Err EmptyResponse
     | Some text =>
         if trim_is_empty text then Err EmptyResponse
         else try_catch (JSON_parse_or_throw text) (fun parseError => Err InvalidJSON)
     end)
    (fun error => Err (FailedToAnalyzePhoto error)).

Definition performEmergencyAssessment (generateContent : Model)
  (assessmentData : EmergencyData) : result Failure json :=
  try_catch
    (rawJson <- await_generateContent
                  (generateContent (EmergencyRequest assessmentData)) ;;
     match rawJson with
     | None => Err EmptyResponse
     | Some text =>
         if trim_is_empty text then Err EmptyResponse
         else try_catch (JSON_parse_or_throw text) (fun parseError => Err InvalidJSON)
     end)
    (fun error => Err (FailedToPerformEmergencyAssessment error)).

(** *** The declared result shapes (shared/aiTypes.ts and the response
    schemas of the three calls) *)

Definition is_string (v : json) : bool :=
  match v with JString _ => true | _ => false end.

Definition is_boolean (v : json) : bool :=
  match v with JBool _ => true | _ => false end.

Definition is_string_array (v : json) : bool :=
  match v with JArray items => forallb is_string items | _ => false end.

Definition is_one_of (values : list string) (v : json) : bool :=
  match v with JString s => existsb (String.eqb s) values | _ => false end.

Definition required (k : string) (p : json -> bool) (members : list (string * json)) : bool :=
  match get_field k members with Some v => p v | None => false end.

Definition optional (k : string) (p : json -> bool) (members : list (string * json)) : bool :=
  match get_field k members with Some v => p v | None => true end.

Definition isSymptomAnalysis (v : json) : bool :=
  match v with
  | JObject m =>
      required "severity" (is_one_of ["mild"; "moderate"; "severe"]) m
      && required "urgency" (is_one_of ["non-urgent"; "same-day"; "emergency"]) m
      && required "insights" is_string m
      && required "recommendations" is_string_array m
      && required "vetRequired" is_boolean m
      && optional "emergencyWarning" is_string m
  | _ => false
  end.

Definition isPhotoAnalysis (v : json) : bool :=
  match v with
  | JObject m =>
      required "findings" is_string m
      && required "concerns" is_string_array m
      && required "recommendations" is_string_array m
      && required "urgencyLevel" (is_one_of ["low"; "medium"; "high"]) m
      && required "suggestedActions" is_string_array m
  | _ => false
  end.

Definition isEmergencyAssessment (v : json) : bool :=
  match v with
  | JObject m =>
      required "urgencyLevel" (is_one_of ["non-urgent"; "urgent"; "emergency"]) m
      && required "timeFrame" is_string m
      && required "reasoning" is_string m
      && required "immediateActions" is_string_array m
      && required "redFlags" is_string_array m
      && required "vetRequired" is_boolean m
  | _ => false
  end.

(** *** Vocabulary of the specification of the orchestrator *)

(** The model resolved with a body that is not blank and parses to [v]. *)
Definition accepted (o : GenerateOutcome) (v : json) : Prop :=
  exists text,
    o = GenerateResolves (Some text)
    /\ trim_is_empty text = false
    /\ JSON_parse text = Some v.

(** The failures of the model call the specification lists: at the transport
    layer, an empty body, a body that does not parse. *)
Definition failureCause (o : GenerateOutcome) : option Cause :=
  match o with
  | GenerateRejects => Some ModelCallFailed
  | GenerateResolves None => Some EmptyResponse
  | GenerateResolves (Some text) =>
      if trim_is_empty text then Some EmptyResponse
      else match JSON_parse text with
           | Some _ => None
           | None => Some InvalidJSON
           end
  end.

End Gemini.

(** ** The AI routes of the server *)

Module Routes.

(** A row of the dogs table as the routes read it.  [birthDate] is
    [new Date(dog.birthDate).getTime()], in milliseconds since the epoch;
    [weight] is the decimal text of the column. *)
Record Dog : Type := mkDog {
  breed : string;
  birthDate : option Z;
  weight : option string
}.

Record HealthRecord : Type := mkHealthRecord {
  hr_type : string;
  hr_title : string
}.

Inductive StorageOutcome (A : Type) : Type :=
| StorageRejects
| StorageResolves (a : A).
Arguments StorageRejects {A}.
Arguments StorageResolves {A} a.

Record Storage : Type := mkStorage {
  getDog : string -> StorageOutcome (option Dog);
  getDogHealthRecords : string -> StorageOutcome (list HealthRecord)
}.

(** [res.status(n).json(v)]; [body] is [None] only for a reply that is not
    JSON, which these routes never send. *)
Record HttpResponse : Type := mkHttpResponse {
  status : nat;
  body : option json
}.

Definition res_json (code : nat) (v : json) : HttpResponse :=
  mkHttpResponse code (Some v).

Definition errorBody (message : string) : json :=
  JObject [("error", JString message)].

(** The symptomData and assessmentData of a request body, as the client
    sends them. *)
Record ClientSymptomData : Type := mkClientSymptomData {
  type : string;
  title : string;
  description : option string;
  severity : option string
}.

Record ClientAssessmentData : Type := mkClientAssessmentData {
  symptoms : list string;
  duration : string;
  assessedSeverity : string;
  currentBehavior : string;
  vitalSigns : list (string * string)
}.

Definition MS_PER_YEAR : Z := 1000 * 60 * 60 * 24 * 365.

(** [dog.birthDate ? Math.floor((Date.now() - birth) / MS_PER_YEAR) : undefined].
    The quotient of two integers below 2^53 is floored exactly. *)
Definition age (now : Z) (dog : Dog) : option Z :=
  match birthDate dog with
  | Some birth => Some ((now - birth) / MS_PER_YEAR)%Z
  | None => None
  end.

Inductive Thrown : Type :=
| StorageError
| AIError (f : Gemini.Failure).

Definition await_storage {A : Type} (o : StorageOutcome A) : result Thrown A :=
  match o with
  | StorageRejects => Err StorageError
  | StorageResolves a => Ok a
  end.

Definition await_ai {A : Type} (r : result Gemini.Failure A) : result Thrown A :=
  match r with
  | Ok a => Ok a
  | Err f => Err (AIError f)
  end.

(** The reply of a handler whose body is [try { ... } catch { onError }]. *)
Definition reply (body : result Thrown HttpResponse) (onError : HttpResponse)
  : HttpResponse :=
  match body with
  | Ok r => r
  | Err _ => onError
  end.

(** POST /api/ai/analyze-symptoms, past the authentication middleware. *)
Definition analyzeSymptomsRoute (storage : Storage) (now : Z)
  (generateContent : Gemini.Model) (dogId : string)
  (symptomData : option ClientSymptomData) : HttpResponse :=
  reply
    (match symptomData with
     | None => Ok (res_json 400 (errorBody "Missing required fields: dogId and symptomData"))
     | Some symptomData =>
         if String.eqb dogId EmptyString
         then Ok (res_json 400 (errorBody "Missing required fields: dogId and symptomData"))
         else
           dog <- await_storage (getDog storage dogId) ;;
           match dog with
           | None => Ok (res_json 404 (errorBody "Dog not found"))
           | Some dog =>
               let analysisData :=
                 Gemini.mkSymptomData (type symptomData) (title symptomData)
                   (description symptomData) (severity symptomData)
                   (breed dog) (age now dog) (weight dog) in
               analysis <- await_ai (Gemini.analyzeSymptoms generateContent analysisData) ;;
               Ok (res_json 200 analysis)
           end
     end)
    (res_json 500 (errorBody "Failed to analyze symptoms")).

(** POST /api/ai/emergency-assessment, past the authentication middleware. *)
Definition emergencyAssessmentRoute (storage : Storage) (now : Z)
  (generateContent : Gemini.Model) (dogId : string)
  (assessmentData : option ClientAssessmentData) : HttpResponse :=
  reply
    (match assessmentData with
     | None => Ok (res_json 400 (errorBody "Missing required fields: dogId and assessmentData"))
     | Some assessmentData =>
         if String.eqb dogId EmptyString
         then Ok (res_json 400 (errorBody "Missing required fields: dogId and assessmentData"))
         else
           dog <- await_storage (getDog storage dogId) ;;
           match dog with
           | None => Ok (res_json 404 (errorBody "Dog not found"))
           | Some dog =>
               recentRecords <- await_storage (getDogHealthRecords storage dogId) ;;
               let medicalHistory :=
                 map (fun record => (hr_type record ++ ": " ++ hr_title record)%string)
                     (firstn 5 recentRecords) in
               let fullAssessmentData :=
                 Gemini.mkEmergencyData (symptoms assessmentData)
                   (duration assessmentData) (assessedSeverity assessmentData)
                   (Gemini.mkDogInfo (breed dog) (age now dog) (weight dog) medicalHistory)
                   (currentBehavior assessmentData) (vitalSigns assessmentData) in
               assessment <- await_ai
                 (Gemini.performEmergencyAssessment generateContent fullAssessmentData) ;;
               Ok (res_json 200 assessment)
           end
     end)
    (res_json 500 (errorBody "Failed to perform emergency assessment")).

(** *** Calendar dates, to name instants in milliseconds since the epoch *)

Definition MS_PER_DAY : Z := 1000 * 60 * 60 * 24.

Definition is_leap (y : Z) : bool :=
  ((y mod 4 =? 0) && negb (y mod 100 =? 0) || (y mod 400 =? 0))%Z.

Definition days_in_month (y m : Z) : Z :=
  if (m =? 2)%Z then (if is_leap y then 29 else 28)%Z
  else if ((m =? 4) || (m =? 6) || (m =? 9) || (m =? 11))%Z then 30%Z
  else 31%Z.

(** Days from 1970-01-01 to the civil date y-m-d of the Gregorian calendar. *)
Definition days_from_civil (y m d : Z) : Z :=
  let y' := (if m <=? 2 then y - 1 else y)%Z in
  let era := (y' / 400)%Z in
  let yoe := (y' - era * 400)%Z in
  let mp := ((m + 9) mod 12)%Z in
  let doy := ((153 * mp + 2) / 5 + d - 1)%Z in
  let doe := (yoe * 365 + yoe / 4 - yoe / 100 + doy)%Z in
  (era * 146097 + doe - 719468)%Z.

(** [Date.UTC(y, m - 1, d) + t]: the instant [t] milliseconds into the day. *)
Definition utc_ms (y m d t : Z) : Z :=
  (days_from_civil y m d * MS_PER_DAY + t)%Z.

(** The calendar month [k] months before month [m] of year [y]. *)
Definition months_before (k y m : Z) : Z * Z :=
  let idx := (y * 12 + (m - 1) - k)%Z in
  ((idx / 12)%Z, (idx mod 12 + 1)%Z).

End Routes.

(** ** Taxonomy and rule tables (emergency assessment component) *)

Module Assessment.

Inductive Urgency : Type := emergency | urgent | routine.

Definition Urgency_eqb (a b : Urgency) : bool :=
  match a, b with
  | emergency, emergency | urgent, urgent | routine, routine => true
  | _, _ => false
  end.

Definition emergencySymptoms : list string :=
  [ "Difficulty breathing or gasping";
    "Seizures or convulsions";
    "Loss of consciousness or collapse";
    "Severe bleeding";
    "Suspected poisoning";
    "Severe vomiting or diarrhea";
    "Unable to urinate or defecate";
    "Signs of severe pain";
    "Pale or blue gums";
    "Severe lethargy or unresponsiveness" ].

Definition urgentSymptoms : list string :=
  [ "Persistent vomiting";
    "Loss of appetite for 24+ hours";
    "Unusual lethargy";
    "Limping or difficulty moving";
    "Excessive thirst or urination";
    "Coughing or breathing changes";
    "Skin irritation or rash";
    "Behavioral changes";
    "Eye discharge or redness";
    "Minor wounds or cuts" ].

Definition routineSymptoms : list string :=
  [ "Minor scratching";
    "Slight change in appetite";
    "Mild lethargy after exercise";
    "Minor behavioral quirks";
    "Regular grooming needs";
    "Routine check-up items";
    "Preventive care questions";
    "Diet or exercise concerns";
    "Training or behavior tips";
    "General wellness questions" ].

(** [prev.includes(symptom)] on an array of strings. *)
Definition includes (symptom : string) (l : list string) : bool :=
  existsb (String.eqb symptom) l.

(** The category a symptom button passes to handleSymptomCheck: the one of
    the list that renders the button. *)
Definition bucketOf (symptom : string) : option Urgency :=
  if includes symptom emergencySymptoms then Some emergency
  else if includes symptom urgentSymptoms then Some urgent
  else if includes symptom routineSymptoms then Some routine
  else None.

(** ** Session state: the useState cells of the component *)

Record VitalSigns : Type := mkVitalSigns {
  breathing : string;
  heartRate : string;
  temperature : string;
  gumColor : string
}.

Record LocalAssessment : Type := mkLocalAssessment {
  symptoms : list string;
  urgency : option Urgency
}.

Record Session : Type := mkSession {
  isOpen : bool;
  currentStep : nat;
  selectedDogId : string;
  selectedSymptoms : list string;
  duration : string;
  severity : string;
  currentBehavior : string;
  vitalSigns : VitalSigns;
  aiAssessment : option json;
  isAnalyzing : bool;
  assessment : LocalAssessment;
  toasts : list Toast
}.

Definition emptyVitalSigns : VitalSigns :=
  mkVitalSigns EmptyString EmptyString EmptyString EmptyString.

(** The initial values given to useState. *)
Definition initialSession : Session :=
  mkSession false 0 EmptyString [] EmptyString EmptyString EmptyString
    emptyVitalSigns None false (mkLocalAssessment [] None) [].

Definition setIsOpen (b : bool) (s : Session) : Session :=
  mkSession b (currentStep s) (selectedDogId s) (selectedSymptoms s) (duration s)
    (severity s) (currentBehavior s) (vitalSigns s) (aiAssessment s)
    (isAnalyzing s) (assessment s) (toasts s).

Definition setCurrentStep (n : nat) (s : Session) : Session :=
  mkSession (isOpen s) n (selectedDogId s) (selectedSymptoms s) (duration s)
    (severity s) (currentBehavior s) (vitalSigns s) (aiAssessment s)
    (isAnalyzing s) (assessment s) (toasts s).

Definition setSelectedDogId (d : string) (s : Session) : Session :=
  mkSession (isOpen s) (currentStep s) d (selectedSymptoms s) (duration s)
    (severity s) (currentBehavior s) (vitalSigns s) (aiAssessment s)
    (isAnalyzing s) (assessment s) (toasts s).

(** The functional form [setSelectedSymptoms(prev => f prev)]. *)
Definition setSelectedSymptoms (f : list string -> list string) (s : Session) : Session :=
  mkSession (isOpen s) (currentStep s) (selectedDogId s) (f (selectedSymptoms s))
    (duration s) (severity s) (currentBehavior s) (vitalSigns s) (aiAssessment s)
    (isAnalyzing s) (assessment s) (toasts s).

Definition setDuration (d : string) (s : Session) : Session :=
  mkSession (isOpen s) (currentStep s) (selectedDogId s) (selectedSymptoms s) d
    (severity s) (currentBehavior s) (vitalSigns s) (aiAssessment s)
    (isAnalyzing s) (assessment s) (toasts s).

Definition setSeverity (d : string) (s : Session) : Session :=
  mkSession (isOpen s) (currentStep s) (selectedDogId s) (selectedSymptoms s)
    (duration s) d (currentBehavior s) (vitalSigns s) (aiAssessment s)
    (isAnalyzing s) (assessment s) (toasts s).

Definition setCurrentBehavior (d : string) (s : Session) : Session :=
  mkSession (isOpen s) (currentStep s) (selectedDogId s) (selectedSymptoms s)
    (duration s) (severity s) d (vitalSigns s) (aiAssessment s)
    (isAnalyzing s) (assessment s) (toasts s).

Definition setVitalSigns (v : VitalSigns) (s : Session) : Session :=
  mkSession (isOpen s) (currentStep s) (selectedDogId s) (selectedSymptoms s)
    (duration s) (severity s) (currentBehavior s) v (aiAssessment s)
    (isAnalyzing s) (assessment s) (toasts s).

Definition setAiAssessment (a : option json) (s : Session) : Session :=
  mkSession (isOpen s) (currentStep s) (selectedDogId s) (selectedSymptoms s)
    (duration s) (severity s) (currentBehavior s) (vitalSigns s) a
    (isAnalyzing s) (assessment s) (toasts s).

Definition setIsAnalyzing (b : bool) (s : Session) : Session :=
  mkSession (isOpen s) (currentStep s) (selectedDogId s) (selectedSymptoms s)
    (duration s) (severity s) (currentBehavior s) (vitalSigns s) (aiAssessment s)
    b (assessment s) (toasts s).

Definition setAssessment (a : LocalAssessment) (s : Session) : Session :=
  mkSession (isOpen s) (currentStep s) (selectedDogId s) (selectedSymptoms s)
    (duration s) (severity s) (currentBehavior s) (vitalSigns s) (aiAssessment s)
    (isAnalyzing s) a (toasts s).

Definition toast (t : Toast) (s : Session) : Session :=
  mkSession (isOpen s) (currentStep s) (selectedDogId s) (selectedSymptoms s)
    (duration s) (severity s) (currentBehavior s) (vitalSigns s) (aiAssessment s)
    (isAnalyzing s) (assessment s) (toasts s ++ [t]).

(** ** Handlers *)

Definition startAssessment (s : Session) : Session :=
  setAssessment (mkLocalAssessment [] None) (setCurrentStep 0 (setIsOpen true s)).

(** The urgency computed in the body of handleSymptomCheck from
    [assessment.urgency] and the category of the clicked button. *)
Definition nextUrgency (current : option Urgency) (category : Urgency) : option Urgency :=
  if Urgency_eqb category emergency
     || match current with None => true | Some _ => false end
  then Some category
  else if Urgency_eqb category urgent
          && match current with Some routine => true | _ => false end
  then Some urgent
  else current.

Definition handleSymptomCheck (symptom : string) (category : Urgency) (s : Session)
  : Session :=
  let newSymptoms := symptoms (assessment s) ++ [symptom] in
  let urgency' := nextUrgency (urgency (assessment s)) category in
  setCurrentStep 2
    (setSelectedSymptoms (fun prev => prev ++ [symptom])
       (setAssessment (mkLocalAssessment newSymptoms urgency') s)).

Definition resetAssessment (s : Session) : Session :=
  setAiAssessment None
    (setVitalSigns emptyVitalSigns
       (setCurrentBehavior EmptyString
          (setSeverity EmptyString
             (setDuration EmptyString
                (setSelectedDogId EmptyString
                   (setSelectedSymptoms (fun _ => [])
                      (setAssessment (mkLocalAssessment [] None)
                         (setCurrentStep 0 s)))))))).

(** The updater passed to setSelectedSymptoms by toggleSymptom. *)
Definition toggle (symptom : string) (prev : list string) : list string :=
  if includes symptom prev
  then filter (fun s => negb (String.eqb s symptom)) prev
  else prev ++ [symptom].

Definition toggleSymptom (symptom : string) (s : Session) : Session :=
  setSelectedSymptoms (toggle symptom) s.

(** ** Result presentation mapper *)

Record Recommendation : Type := mkRecommendation {
  title : string;
  description : string;
  action : string;
  color : string;
  bgColor : string
}.

(** getRecommendation reads [assessment.urgency] of the component; null is
    [None]. *)
Definition getRecommendation (s : Session) : option Recommendation :=
  match urgency (assessment s) with
  | Some emergency =>
      Some (mkRecommendation
        "🚨 Emergency Care Needed"
        "Contact your emergency vet or animal hospital immediately. These symptoms require immediate professional attention."
        "Call Emergency Vet Now"
        "text-destructive"
        "bg-destructive/10")
  | Some urgent =>
      Some (mkRecommendation
        "⚠️ Urgent Veterinary Care"
        "Schedule an appointment with your vet within the next 24-48 hours. Monitor symptoms closely."
        "Schedule Vet Visit"
        "text-chart-4"
        "bg-chart-4/10")
  | Some routine =>
      Some (mkRecommendation
        "📅 Routine Care"
        "These concerns can typically wait for your next routine appointment. Continue monitoring and note any changes."
        "Schedule Routine Visit"
        "text-accent"
        "bg-accent/10")
  | None => None
  end.

(** ** The AI assessment request of the component *)

(** What the fetch issued by the request helper produced. *)
Inductive FetchOutcome : Type :=
| NetworkError
| Responded (r : Routes.HttpResponse).

(** [apiRequest(method, url, data)] comes from lib/queryClient, whose source
    is not among the files of the component.  It is taken as a parameter: from
    what its fetch produced to the response it resolves with, [None] when it
    rejects. *)
Definition ApiRequest : Type := FetchOutcome -> option Routes.HttpResponse.

Definition await_apiRequest (r : option Routes.HttpResponse)
  : result unit Routes.HttpResponse :=
  match r with
  | Some response => Ok response
  | None => Err tt
  end.

(** [await response.json()]. *)
Definition response_json (response : Routes.HttpResponse) : result unit json :=
  match Routes.body response with
  | Some v => Ok v
  | None => Err tt
  end.

(** The property read [v.k] for a key that is neither an index nor length:
    a TypeError on null, the member on an object, undefined elsewhere. *)
Definition get_property (v : json) (k : string) : result unit (option json) :=
  match v with
  | JNull => Err tt
  | JObject members => Ok (get_field k members)
  | _ => Ok None
  end.

(** [value || fallback] on strings. *)
Definition or_else (value fallback : string) : string :=
  if String.eqb value EmptyString then fallback else value.

Definition assessmentData (s : Session) : Routes.ClientAssessmentData :=
  Routes.mkClientAssessmentData
    (selectedSymptoms s)
    (or_else (duration s) "Unknown")
    (or_else (severity s) "Not specified")
    (or_else (currentBehavior s) "Not specified")
    (filter (fun entry => negb (String.eqb (snd entry) EmptyString))
       [ ("breathing", breathing (vitalSigns s));
         ("heartRate", heartRate (vitalSigns s));
         ("temperature", temperature (vitalSigns s));
         ("gumColor", gumColor (vitalSigns s)) ]).

(** [post dogId data] is what the POST to /api/ai/emergency-assessment
    produced on the network. *)
Definition performAIAssessment (apiRequest : ApiRequest)
  (post : string -> Routes.ClientAssessmentData -> FetchOutcome) (s : Session)
  : Session :=
  if String.eqb (selectedDogId s) EmptyString
     || (List.length (selectedSymptoms s) =? 0)%nat
  then
    toast (mkToast "Missing Information"
             "Please select a dog and symptoms before getting AI analysis."
             destructive) s
  else
    let s1 := setIsAnalyzing true s in
    let s2 :=
      match (response <- await_apiRequest
                           (apiRequest (post (selectedDogId s) (assessmentData s))) ;;
             result <- response_json response ;;
             get_property result "assessment")
      with
      | Ok a =>
          toast (mkToast "AI Assessment Complete"
                   "Emergency assessment has been analyzed by AI." plain)
            (setCurrentStep 3 (setAiAssessment a s1))
      | Err _ =>
          toast (mkToast "Assessment Failed"
                   "Unable to perform AI assessment. Please try again."
                   destructive) s1
      end in
    setIsAnalyzing false s2.

(** The request travelling to the route of the server and its reply
    travelling back. *)
Definition served (storage : Routes.Storage) (now : Z) (generateContent : Gemini.Model)
  : string -> Routes.ClientAssessmentData -> FetchOutcome :=
  fun dogId data =>
    Responded (Routes.emergencyAssessmentRoute storage now generateContent dogId (Some data)).

(** ** Vocabulary of the specification of the component *)

(** The classifier as the specification words it. *)
Definition classify (currentUrgency : option Urgency) (newBucket : Urgency) : Urgency :=
  match currentUrgency with
  | None => newBucket
  | Some current =>
      match newBucket, current with
      | emergency, _ => emergency
      | urgent, routine => urgent
      | _, _ => current
      end
  end.

(** Priority: emergency above urgent above routine; no urgency below all. *)
Definition rank (u : Urgency) : nat :=
  match u with
  | routine => 1
  | urgent => 2
  | emergency => 3
  end.

Definition rankOf (u : option Urgency) : nat :=
  match u with
  | None => 0
  | Some u => rank u
  end.

(** The highest-priority bucket of a list of buckets. *)
Fixpoint highest (buckets : list Urgency) : option Urgency :=
  match buckets with
  | [] => None
  | b :: rest =>
      match highest rest with
      | None => Some b
      | Some h => Some (if (rank h <? rank b)%nat then b else h)
      end
  end.

Definition bucketsOf (l : list string) : list Urgency :=
  flat_map (fun symptom => match bucketOf symptom with Some b => [b] | None => [] end) l.

(** A click on a button of the symptom picker. *)
Definition select (s : Session) (click : string * Urgency) : Session :=
  handleSymptomCheck (fst click) (snd click) s.

Definition selectAll (clicks : list (string * Urgency)) (s : Session) : Session :=
  fold_left select clicks s.

(** The click comes from a button of the three lists. *)
Definition canned (click : string * Urgency) : Prop :=
  bucketOf (fst click) = Some (snd click).

(** Operations on the selection: a click of the picker, or a toggle. *)
Inductive Op : Type :=
| Select (symptom : string) (category : Urgency)
| Toggle (symptom : string).

Definition step (s : Session) (op : Op) : Session :=
  match op with
  | Select symptom category => handleSymptomCheck symptom category s
  | Toggle symptom => toggleSymptom symptom s
  end.

Definition run (ops : list Op) (s : Session) : Session := fold_left step ops s.

(** Every Select of the sequence picks a symptom that is not selected at
    that point. *)
Fixpoint selectsUnselected (s : Session) (ops : list Op) : bool :=
  match ops with
  | [] => true
  | op :: rest =>
      match op with
      | Select symptom _ => negb (includes symptom (selectedSymptoms s))
      | Toggle _ => true
      end && selectsUnselected (step s op) rest
  end.

(** The table of the specification for the presentation mapper. *)
Definition specTitleTone (u : Urgency) : string :=
  match u with
  | emergency => "Emergency care needed"
  | urgent => "Urgent veterinary care"
  | routine => "Routine care"
  end.

Definition specActionLabel (u : Urgency) : string :=
  match u with
  | emergency => "Call emergency vet now"
  | urgent => "Schedule vet visit"
  | routine => "Schedule routine visit"
  end.

Definition lower_ascii (c : ascii) : ascii :=
  let n := nat_of_ascii c in
  if (65 <=? n)%nat && (n <=? 90)%nat then ascii_of_nat (n + 32) else c.

Fixpoint lower (s : string) : string :=
  match s with
  | EmptyString => EmptyString
  | String c rest => String (lower_ascii c) (lower rest)
  end.

(** [needle] occurs in [hay]. *)
Fixpoint occurs_in (needle hay : string) : bool :=
  String.prefix needle hay
  || match hay with
     | EmptyString => false
     | String _ rest => occurs_in needle rest
     end.

(** A session at the local-result step: opened, continued, and one symptom
    picked. *)
Definition atLocalResult : Session :=
  handleSymptomCheck "Seizures or convulsions" emergency
    (setCurrentStep 1 (startAssessment initialSession)).

(** ** Vocabulary of the specification of the AI request *)

Definition is_2xx (status : nat) : bool :=
  (200 <=? status)%nat && (status <? 300)%nat.

(** The request helper rejects when the network fails and when the reply is
    not a 2xx one. *)
Definition rejects_failures (apiRequest : ApiRequest) : Prop :=
  apiRequest NetworkError = None
  /\ forall r, is_2xx (Routes.status r) = false -> apiRequest (Responded r) = None.

(** Modelled from the spec: apiRequest of client/src/lib/queryClient, which is
    missing from the sources.  Section 4.4 counts a network failure and a
    non-2xx reply among the failures of a request; any other reply is handed
    to the caller. *)
Definition apiRequest_of_spec : ApiRequest :=
  fun o =>
    match o with
    | NetworkError => None
    | Responded r => if is_2xx (Routes.status r) then Some r else None
    end.

(** A helper that hands every reply to its caller, as a bare fetch does. *)
Definition apiRequest_passing : ApiRequest :=
  fun o =>
    match o with
    | NetworkError => None
    | Responded r => Some r
    end.

(** The model call failed at the transport layer, returned an empty body, or
    returned a body that JSON.parse refuses. *)
Definition failing (o : Gemini.GenerateOutcome) : bool :=
  match Gemini.failureCause o with
  | Some _ => true
  | None => false
  end.

End Assessment.

(** ** Batch photo analysis of the health entry dialog *)

Module HealthEntry.

Record File : Type := mkFile {
  name : string;
  size : N
}.

(** What [fetch('/api/ai/analyze-photo', ...)] produced for one file: a
    rejection, or a response with its [ok] flag and what [response.json()]
    gives ([None] when it throws). *)
Inductive PhotoFetch : Type :=
| FetchRejects
| FetchResolves (ok : bool) (parsed : option json).

Record Dialog : Type := mkDialog {
  selectedFiles : list File;
  description : string;
  photoAnalyses : list json;
  isAnalyzingPhotos : bool;
  toasts : list Toast
}.

Definition setPhotoAnalyses (a : list json) (d : Dialog) : Dialog :=
  mkDialog (selectedFiles d) (description d) a (isAnalyzingPhotos d) (toasts d).

Definition setIsAnalyzingPhotos (b : bool) (d : Dialog) : Dialog :=
  mkDialog (selectedFiles d) (description d) (photoAnalyses d) b (toasts d).

Definition toast (t : Toast) (d : Dialog) : Dialog :=
  mkDialog (selectedFiles d) (description d) (photoAnalyses d) (isAnalyzingPhotos d)
    (toasts d ++ [t]).

(** The for-of loop over the selected files; [Err] when an await inside it
    rejects, which leaves the loop and the try block. *)
Fixpoint analyzeLoop (fetch : File -> string -> PhotoFetch) (context : string)
  (files : list File) (analyses : list json) : result unit (list json) :=
  match files with
  | [] => Ok analyses
  | file :: rest =>
      match fetch file context with
      | FetchRejects => Err tt
      | FetchResolves true (Some analysis) =>
          analyzeLoop fetch context rest (analyses ++ [analysis])
      | FetchResolves true None => Err tt
      | FetchResolves false _ => analyzeLoop fetch context rest analyses
      end
  end.

(** The text of [analyses.length] in the template of the toast. *)
Definition string_of_nat (n : nat) : string :=
  NilZero.string_of_uint (Nat.to_uint n).

Definition analyzePhotos (fetch : File -> string -> PhotoFetch) (d : Dialog) : Dialog :=
  if (List.length (selectedFiles d) =? 0)%nat
  then
    toast (mkToast "No Photos" "Please upload photos before analyzing." destructive) d
  else
    let d1 := setIsAnalyzingPhotos true d in
    let d2 :=
      match analyzeLoop fetch (description d) (selectedFiles d) [] with
      | Ok analyses =>
          toast (mkToast "Photo Analysis Complete"
                   ("Analyzed " ++ string_of_nat (List.length analyses)
                    ++ " photo(s) successfully.")%string
                   plain)
            (setPhotoAnalyses analyses d1)
      | Err _ =>
          toast (mkToast "Photo Analysis Failed"
                   "Unable to analyze photos. Please try again." destructive) d1
      end in
    setIsAnalyzingPhotos false d2.

(** The analyses of the files whose request succeeded, in the order of the
    files, and the files whose request did not. *)
Fixpoint successes (fetch : File -> string -> PhotoFetch) (context : string)
  (files : list File) : list json :=
  match files with
  | [] => []
  | file :: rest =>
      match fetch file context with
      | FetchResolves true (Some analysis) => analysis :: successes fetch context rest
      | _ => successes fetch context rest
      end
  end.

Definition failed (fetch : File -> string -> PhotoFetch) (context : string)
  (file : File) : bool :=
  match fetch file context with
  | FetchResolves true (Some _) => false
  | _ => true
  end.

(** No await of the loop rejects: every request resolved, and every
    response that is ok carries JSON. *)
Definition no_rejection (fetch : File -> string -> PhotoFetch) (context : string)
  (files : list File) : bool :=
  forallb (fun file =>
             match fetch file context with
             | FetchRejects => false
             | FetchResolves true None => false
             | _ => true
             end) files.

End HealthEntry.



(** ** Concrete data for the scenarios *)

Module Examples.

(** A text between double quotes. *)
Definition quoted (s : string) : string :=
  String Json.quote (s ++ String Json.quote EmptyString).

(** A body that is JSON and has one of the six required members. *)
Definition partialBody : string :=
  "{" ++ quoted "urgencyLevel" ++ ":" ++ quoted "emergency" ++ "}".

Definition now : Z := Routes.utc_ms 2025 6 15 0.

(** Born 2022-07-15, two years and eleven months before [now]. *)
Definition rex : Routes.Dog :=
  Routes.mkDog "Labrador Retriever" (Some (Routes.utc_ms 2022 7 15 0)) (Some "65.50").

Definition storage : Routes.Storage :=
  Routes.mkStorage
    (fun dogId =>
       Routes.StorageResolves (if String.eqb dogId "dog-1" then Some rex else None))
    (fun _ => Routes.StorageResolves []).

Definition emergencyData : Gemini.EmergencyData :=
  Gemini.mkEmergencyData ["Seizures or convulsions"] "Unknown" "Not specified"
    (Gemini.mkDogInfo "Labrador Retriever" (Some 2%Z) (Some "65.50") [])
    "Not specified" [].

Definition symptomData : Gemini.SymptomData :=
  Gemini.mkSymptomData "symptom" "Limping" None None "Labrador Retriever"
    (Some 2%Z) (Some "65.50").

(** Models that answer every request with the same body. *)
Definition answering (text : string) : Gemini.Model :=
  fun _ => Gemini.GenerateResolves (Some text).

(** The session of the failure scenario: one emergency symptom picked and a
    dog selected. *)
Definition withDog : Assessment.Session :=
  Assessment.setSelectedDogId "dog-1" Assessment.atLocalResult.

(** Three photos, and three ways the requests of a batch can go. *)
Definition photo1 : HealthEntry.File := HealthEntry.mkFile "paw.png" 204800%N.
Definition photo2 : HealthEntry.File := HealthEntry.mkFile "scan.tiff" 7340032%N.
Definition photo3 : HealthEntry.File := HealthEntry.mkFile "ear.jpg" 307200%N.

Definition analysisX : json := JObject [("findings", JString "redness between the toes")].
Definition analysisY : json := JObject [("findings", JString "wax in the ear canal")].

Definition refused : HealthEntry.PhotoFetch :=
  HealthEntry.FetchResolves false
    (Some (Routes.errorBody "Failed to analyze photo")).

(** The second photo is refused by the server. *)
Definition secondRefused : HealthEntry.File -> string -> HealthEntry.PhotoFetch :=
  fun file _ =>
    if String.eqb (HealthEntry.name file) "paw.png"
    then HealthEntry.FetchResolves true (Some analysisX)
    else if String.eqb (HealthEntry.name file) "scan.tiff" then refused
    else HealthEntry.FetchResolves true (Some analysisY).

(** The third photo is refused by the server. *)
Definition thirdRefused : HealthEntry.File -> string -> HealthEntry.PhotoFetch :=
  fun file _ =>
    if String.eqb (HealthEntry.name file) "paw.png"
    then HealthEntry.FetchResolves true (Some analysisX)
    else if String.eqb (HealthEntry.name file) "scan.tiff"
    then HealthEntry.FetchResolves true (Some analysisY)
    else refused.

(** The request for the second photo fails on the network. *)
Definition secondUnreachable : HealthEntry.File -> string -> HealthEntry.PhotoFetch :=
  fun file _ =>
    if String.eqb (HealthEntry.name file) "paw.png"
    then HealthEntry.FetchResolves true (Some analysisX)
    else if String.eqb (HealthEntry.name file) "scan.tiff" then HealthEntry.FetchRejects
    else HealthEntry.FetchResolves true (Some analysisY).

Definition threePhotos : HealthEntry.Dialog :=
  HealthEntry.mkDialog [photo1; photo2; photo3] "limping since monday" [] false [].

End Examples.

(** ** The rendered interface of the emergency assessment component *)

Module AssessmentUI.

Import Assessment.

(** What the dialog shows: the three blocks of the JSX, each guarded by the
    step (the third one also by the recommendation); nothing when the dialog
    is closed. *)
Inductive Panel : Type :=
| IntroPanel
| PickerPanel
| ResultPanel (r : Recommendation).

Definition panel (s : Session) : option Panel :=
  if isOpen s then
    match currentStep s with
    | 0 => Some IntroPanel
    | 1 => Some PickerPanel
    | 2 =>
        match getRecommendation s with
        | Some r => Some (ResultPanel r)
        | None => None
        end
    | _ => None
    end
  else None.

(** The list a symptom button is rendered from; the button passes the
    category of its list to handleSymptomCheck. *)
Definition symptomsOf (category : Urgency) : list string :=
  match category with
  | emergency => emergencySymptoms
  | urgent => urgentSymptoms
  | routine => routineSymptoms
  end.

(** The controls wired in the JSX.  [Symptom category index] is the button
    rendered for the element at [index] of the list of [category];
    [OpenChange] is the onOpenChange callback of the dialog. *)
Inductive Control : Type :=
| StartAssessment
| Continue
| Symptom (category : Urgency) (index : nat)
| Back
| CancelAssessment
| StartOver
| Close
| OpenChange (open : bool).

(** The handler a control runs.  A control of the dialog exists only while
    its panel is rendered; the start button stands on the page. *)
Definition click (s : Session) (c : Control) : Session :=
  match c, panel s with
  | StartAssessment, _ => startAssessment s
  | OpenChange open, _ => setIsOpen open s
  | Continue, Some IntroPanel => setCurrentStep 1 s
  | Symptom category index, Some PickerPanel =>
      match nth_error (symptomsOf category) index with
      | Some symptom => handleSymptomCheck symptom category s
      | None => s
      end
  | Back, Some PickerPanel => setCurrentStep 0 s
  | CancelAssessment, Some PickerPanel => setIsOpen false s
  | StartOver, Some (ResultPanel _) => resetAssessment s
  | Close, Some (ResultPanel _) => setIsOpen false s
  | _, _ => s
  end.

Definition interact (controls : list Control) (s : Session) : Session :=
  fold_left click controls s.

(** What every state reached through the controls satisfies. *)
Definition reachable_invariant (s : Session) : Prop :=
  ((currentStep s <= 1 /\ assessment s = mkLocalAssessment [] None)
   \/ (currentStep s = 2
       /\ exists category symptom,
            In symptom (symptomsOf category)
            /\ assessment s = mkLocalAssessment [symptom] (Some category)))
  /\ (exists earlier, selectedSymptoms s = earlier ++ symptoms (assessment s))
  /\ Forall (fun symptom => bucketOf symptom <> None) (selectedSymptoms s)
  /\ selectedDogId s = EmptyString
  /\ aiAssessment s = None
  /\ isAnalyzing s = false
  /\ duration s = EmptyString
  /\ severity s = EmptyString
  /\ currentBehavior s = EmptyString
  /\ vitalSigns s = emptyVitalSigns
  /\ toasts s = [].

(** The request helper hands a 2xx reply to its caller. *)
Definition passes_success (apiRequest : ApiRequest) : Prop :=
  forall r, is_2xx (Routes.status r) = true -> apiRequest (Responded r) = Some r.

(** The toast of the guard of performAIAssessment. *)
Definition missingInformation : Toast :=
  mkToast "Missing Information"
    "Please select a dog and symptoms before getting AI analysis." destructive.

End AssessmentUI.

(** ** The health summary of the orchestrator and the remaining AI routes *)

Module Summary.

(** The arguments of generateHealthSummary. *)
Record DogData : Type := mkDogData {
  name : string;
  breed : string;
  age : option Z;
  weight : option string
}.

Record RecentRecord : Type := mkRecentRecord {
  type : string;
  title : string;
  description : option string;
  severity : option string;
  recordedAt : Z
}.

(** The call of generateHealthSummary to the model: its prompt is a fixed
    text filled with the two arguments. *)
Definition SummaryModel : Type := DogData -> list RecentRecord -> Gemini.GenerateOutcome.

Inductive SummaryFailure : Type :=
| FailedToGenerateHealthSummary (cause : Gemini.Cause).

Definition fallbackSummary : string := "Unable to generate health summary".

(** [response.text || fallback]: undefined and the empty text are falsy. *)
Definition generateHealthSummary (generateContent : SummaryModel) (dogData : DogData)
  (recentHealthRecords : list RecentRecord) : result SummaryFailure string :=
  try_catch
    (text <- Gemini.await_generateContent (generateContent dogData recentHealthRecords) ;;
     Ok (match text with
         | Some t => if String.eqb t EmptyString then fallbackSummary else t
         | None => fallbackSummary
         end))
    (fun error => Err (FailedToGenerateHealthSummary error)).

(** The rows of the storage as the summary route reads them: the columns
    read by the other routes, and the further ones read here. *)
Record DogRow : Type := mkDogRow {
  dog : Routes.Dog;
  dogName : string
}.

Record HealthRecordRow : Type := mkHealthRecordRow {
  record : Routes.HealthRecord;
  rowDescription : option string;
  rowSeverity : option string;
  rowRecordedAt : option Z
}.

Record RowStorage : Type := mkRowStorage {
  getDog : string -> Routes.StorageOutcome (option DogRow);
  getDogHealthRecords : string -> Routes.StorageOutcome (list HealthRecordRow)
}.

(** [value || undefined] on a nullable text column. *)
Definition or_undefined (value : option string) : option string :=
  match value with
  | Some t => if String.eqb t EmptyString then None else Some t
  | None => None
  end.

(** [now] stands for both Date.now() and new Date(). *)
Definition formatRecord (now : Z) (row : HealthRecordRow) : RecentRecord :=
  mkRecentRecord (Routes.hr_type (record row)) (Routes.hr_title (record row))
    (or_undefined (rowDescription row)) (or_undefined (rowSeverity row))
    (match rowRecordedAt row with Some t => t | None => now end).

Inductive Thrown : Type :=
| StorageError
| SummaryError (f : SummaryFailure).

Definition await_storage {A : Type} (o : Routes.StorageOutcome A) : result Thrown A :=
  match o with
  | Routes.StorageRejects => Err StorageError
  | Routes.StorageResolves a => Ok a
  end.

Definition await_summary {A : Type} (r : result SummaryFailure A) : result Thrown A :=
  match r with
  | Ok a => Ok a
  | Err f => Err (SummaryError f)
  end.

Definition reply (body : result Thrown Routes.HttpResponse) (onError : Routes.HttpResponse)
  : Routes.HttpResponse :=
  match body with
  | Ok r => r
  | Err _ => onError
  end.

(** POST /api/ai/generate-health-summary, past the authentication
    middleware. *)
Definition generateHealthSummaryRoute (storage : RowStorage) (now : Z)
  (generateContent : SummaryModel) (dogId : string) : Routes.HttpResponse :=
  reply
    (if String.eqb dogId EmptyString
     then Ok (Routes.res_json 400 (Routes.errorBody "Missing required field: dogId"))
     else
       row <- await_storage (getDog storage dogId) ;;
       match row with
       | None => Ok (Routes.res_json 404 (Routes.errorBody "Dog not found"))
       | Some row =>
           healthRecords <- await_storage (getDogHealthRecords storage dogId) ;;
           let recentRecords := firstn 10 healthRecords in
           let dogData :=
             mkDogData (dogName row) (Routes.breed (dog row))
               (Routes.age now (dog row)) (Routes.weight (dog row)) in
           let formattedRecords := map (formatRecord now) recentRecords in
           summary <- await_summary
                        (generateHealthSummary generateContent dogData formattedRecords) ;;
           Ok (Routes.res_json 200 (JObject [("summary", JString summary)]))
       end)
    (Routes.res_json 500 (Routes.errorBody "Failed to generate health summary")).

(** The file multer leaves in [req.file]. *)
Record UploadedFile : Type := mkUploadedFile {
  buffer : string;
  mimetype : string
}.

(** POST /api/ai/analyze-photo, past the authentication and upload
    middlewares. *)
Definition analyzePhotoRoute (generateContent : Gemini.Model)
  (file : option UploadedFile) (context : option string) : Routes.HttpResponse :=
  Routes.reply
    (match file with
     | None => Ok (Routes.res_json 400 (Routes.errorBody "No photo uploaded"))
     | Some file =>
         analysis <- Routes.await_ai
                       (Gemini.analyzeHealthPhoto generateContent (buffer file)
                          (mimetype file) context) ;;
         Ok (Routes.res_json 200 analysis)
     end)
    (Routes.res_json 500 (Routes.errorBody "Failed to analyze photo")).

(** The data the two dog routes hand to the orchestrator. *)
Definition emergencyInput (now : Z) (dog : Routes.Dog)
  (recentRecords : list Routes.HealthRecord) (data : Routes.ClientAssessmentData)
  : Gemini.EmergencyData :=
  Gemini.mkEmergencyData (Routes.symptoms data) (Routes.duration data)
    (Routes.assessedSeverity data)
    (Gemini.mkDogInfo (Routes.breed dog) (Routes.age now dog) (Routes.weight dog)
       (map (fun r => (Routes.hr_type r ++ ": " ++ Routes.hr_title r)%string)
            (firstn 5 recentRecords)))
    (Routes.currentBehavior data) (Routes.vitalSigns data).

Definition symptomInput (now : Z) (dog : Routes.Dog) (data : Routes.ClientSymptomData)
  : Gemini.SymptomData :=
  Gemini.mkSymptomData (Routes.type data) (Routes.title data) (Routes.description data)
    (Routes.severity data) (Routes.breed dog) (Routes.age now dog) (Routes.weight dog).

End Summary.

(** The promise of generateHealthSummary resolved. *)
Definition is_ok_summary (r : result Summary.SummaryFailure string) : bool :=
  match r with
  | Ok _ => true
  | Err _ => false
  end.

(** ** The photo requests of the health entry form, as the server answers them *)

Module PhotoService.

(** What the upload middleware (multer, one file under the key photo) did
    with the request: it refused it, and the client got a reply that is not
    ok, or it called the handler with [req.file], absent or present. *)
Inductive Upload : Type :=
| UploadRefused
| UploadPassed (file : option Summary.UploadedFile).

(** The fetch of analyzePhotos answered by the analyze-photo route; the
    context of the form travels as a text field of the request. *)
Definition servedPhoto (upload : HealthEntry.File -> Upload) (generateContent : Gemini.Model)
  : HealthEntry.File -> string -> HealthEntry.PhotoFetch :=
  fun file context =>
    match upload file with
    | UploadRefused => HealthEntry.FetchResolves false None
    | UploadPassed uploaded =>
        let r := Summary.analyzePhotoRoute generateContent uploaded (Some context) in
        HealthEntry.FetchResolves (Assessment.is_2xx (Routes.status r)) (Routes.body r)
    end.

(** The toast that ends a batch that went through. *)
Definition analysisComplete (n : nat) : Toast :=
  mkToast "Photo Analysis Complete"
    ("Analyzed " ++ HealthEntry.string_of_nat n ++ " photo(s) successfully.")%string
    plain.

End PhotoService.

(** ** The health entry form: files, and the symptom analysis request *)

Module HealthEntryForm.

Import HealthEntry.

Definition MAX_FILE_SIZE : N := 5 * 1024 * 1024.

(** The functional form [setSelectedFiles(prev => f prev)]. *)
Definition setSelectedFiles (f : list File -> list File) (d : Dialog) : Dialog :=
  mkDialog (f (selectedFiles d)) (description d) (photoAnalyses d)
    (isAnalyzingPhotos d) (toasts d).

Definition setDescription (text : string) (d : Dialog) : Dialog :=
  mkDialog (selectedFiles d) text (photoAnalyses d) (isAnalyzingPhotos d) (toasts d).

(** The initial values given to useState and to the form. *)
Definition initialDialog : Dialog := mkDialog [] EmptyString [] false [].

Definition invalidFile (file : File) : Toast :=
  mkToast "Invalid File" (name file ++ " is not an image file.")%string destructive.

Definition fileTooLarge (file : File) : Toast :=
  mkToast "File Too Large" (name file ++ " exceeds the 5MB limit.")%string destructive.

Definition tooManyFiles : Toast :=
  mkToast "Too Many Files" "You can upload a maximum of 5 photos." destructive.

(** [Array.from(files).filter(callback)] of handleFileSelect: the callback
    shows a toast for a file it drops.  [type] reads the media type of a
    file, which the record of a file does not carry. *)
Fixpoint keepValid (type : File -> string) (files : list File) (d : Dialog)
  : list File * Dialog :=
  match files with
  | [] => ([], d)
  | file :: rest =>
      if negb (String.prefix "image/" (type file))
      then keepValid type rest (toast (invalidFile file) d)
      else if (MAX_FILE_SIZE <? size file)%N
      then keepValid type rest (toast (fileTooLarge file) d)
      else let (kept, d') := keepValid type rest d in (file :: kept, d')
  end.

(** [files] is [event.target.files], null when [None]. *)
Definition handleFileSelect (type : File -> string) (files : option (list File))
  (d : Dialog) : Dialog :=
  match files with
  | None => d
  | Some files =>
      let (newFiles, d1) := keepValid type files d in
      let totalFiles := List.length (selectedFiles d) + List.length newFiles in
      if (5 <? totalFiles)%nat
      then toast tooManyFiles d1
      else setSelectedFiles (fun prev => prev ++ newFiles) d1
  end.

(** [l.filter((_, i) => keep i)], the first index being [i]. *)
Fixpoint filter_index {A : Type} (keep : nat -> bool) (i : nat) (l : list A) : list A :=
  match l with
  | [] => []
  | x :: rest =>
      if keep i then x :: filter_index keep (S i) rest else filter_index keep (S i) rest
  end.

Definition removeFile (index : nat) (d : Dialog) : Dialog :=
  setSelectedFiles (filter_index (fun i => negb (i =? index)%nat) 0) d.

(** A file the form accepts. *)
Definition acceptable (type : File -> string) (file : File) : bool :=
  String.prefix "image/" (type file) && (size file <=? MAX_FILE_SIZE)%N.

(** What can happen to the files of the dialog: a change of the file input,
    a click on the cross of a preview, an edit of the description, a batch
    analysis, and a saved entry (which empties the list). *)
Inductive FileEvent : Type :=
| FilesChosen (files : option (list File))
| PreviewRemoved (index : nat)
| DescriptionEdited (text : string)
| PhotosAnalyzed (fetch : File -> string -> PhotoFetch)
| EntrySaved.

Definition handle (type : File -> string) (d : Dialog) (e : FileEvent) : Dialog :=
  match e with
  | FilesChosen files => handleFileSelect type files d
  | PreviewRemoved index => removeFile index d
  | DescriptionEdited text => setDescription text d
  | PhotosAnalyzed fetch => analyzePhotos fetch d
  | EntrySaved => setSelectedFiles (fun _ => []) d
  end.

Definition handleAll (type : File -> string) (events : list FileEvent) (d : Dialog)
  : Dialog :=
  fold_left (handle type) events d.

(** The remaining state of the form: the dialog above, the identifier of
    the dog (a property of the component), the fields of the form besides
    the description, and the cells of the symptom analysis. *)
Record Form : Type := mkForm {
  dialog : Dialog;
  dogId : string;
  formType : string;
  formTitle : string;
  formSeverity : string;
  aiAnalysis : option json;
  isAnalyzingSymptoms : bool
}.

Definition setAiAnalysis (a : option json) (f : Form) : Form :=
  mkForm (dialog f) (dogId f) (formType f) (formTitle f) (formSeverity f) a
    (isAnalyzingSymptoms f).

Definition setIsAnalyzingSymptoms (b : bool) (f : Form) : Form :=
  mkForm (dialog f) (dogId f) (formType f) (formTitle f) (formSeverity f)
    (aiAnalysis f) b.

Definition onDialog (g : Dialog -> Dialog) (f : Form) : Form :=
  mkForm (g (dialog f)) (dogId f) (formType f) (formTitle f) (formSeverity f)
    (aiAnalysis f) (isAnalyzingSymptoms f).

Definition symptomData (f : Form) : Routes.ClientSymptomData :=
  Routes.mkClientSymptomData (formType f) (formTitle f)
    (Some (description (dialog f))) (Some (formSeverity f)).

(** [post dogId data] is what the POST to /api/ai/analyze-symptoms produced
    on the network. *)
Definition analyzeSymptoms (apiRequest : Assessment.ApiRequest)
  (post : string -> Routes.ClientSymptomData -> Assessment.FetchOutcome) (f : Form)
  : Form :=
  if String.eqb (formType f) EmptyString || String.eqb (formTitle f) EmptyString
  then
    onDialog
      (toast (mkToast "Missing Information"
                "Please fill in the type and title fields before analyzing."
                destructive)) f
  else
    let f1 := setIsAnalyzingSymptoms true f in
    let f2 :=
      match (response <- Assessment.await_apiRequest
                           (apiRequest (post (dogId f) (symptomData f))) ;;
             Assessment.response_json response)
      with
      | Ok analysisResult =>
          onDialog
            (toast (mkToast "AI Analysis Complete"
                      "Symptom analysis has been generated." plain))
            (setAiAnalysis (Some analysisResult) f1)
      | Err _ =>
          onDialog
            (toast (mkToast "Analysis Failed"
                      "Unable to analyze symptoms. Please try again." destructive))
            f1
      end in
    setIsAnalyzingSymptoms false f2.

Definition resetAnalyses (f : Form) : Form :=
  onDialog (setPhotoAnalyses []) (setAiAnalysis None f).

(** The request travelling to the analyze-symptoms route and its reply
    travelling back. *)
Definition servedSymptoms (storage : Routes.Storage) (now : Z)
  (generateContent : Gemini.Model)
  : string -> Routes.ClientSymptomData -> Assessment.FetchOutcome :=
  fun dogId data =>
    Assessment.Responded
      (Routes.analyzeSymptomsRoute storage now generateContent dogId (Some data)).

End HealthEntryForm.

(** ** The header: the name shown for the signed-in user *)

Module Header.

Record User : Type := mkUser {
  firstName : option string;
  email : option string
}.

(** [text.split('@')[0]]: the text before the first at sign, the whole text
    when it has none. *)
Fixpoint before_at (text : string) : string :=
  match text with
  | EmptyString => EmptyString
  | String c rest => if (c =? "@")%char then EmptyString else String c (before_at rest)
  end.

(** [a || b] on texts that may be absent: the empty text is falsy. *)
Definition or_text (a : option string) (b : string) : string :=
  match a with
  | Some t => if String.eqb t EmptyString then b else t
  | None => b
  end.

(** [user?.firstName || user?.email?.split('@')[0] || "User"]. *)
Definition displayName (user : option User) : string :=
  match user with
  | None => "User"
  | Some u =>
      or_text (firstName u)
        (or_text (match email u with
                  | Some e => Some (before_at e)
                  | None => None
                  end)
           "User")
  end.

End Header.

(** ** Calls to outside services, recorded *)

(** What awaiting a call to a service produced. *)
Inductive Outcome (A : Type) : Type :=
| Rejects (message : string)
| Resolves (a : A).
Arguments Rejects {A} message.
Arguments Resolves {A} a.

(** A computation that awaits services: its result, or the message of the
    error that ended it, and the calls it made, in order. *)
Definition Traced (C A : Type) : Type := result string A * list C.

Definition ret {C A : Type} (a : A) : Traced C A := (Ok a, []).

Definition call {C A : Type} (c : C) (o : Outcome A) : Traced C A :=
  (match o with
   | Rejects message => Err message
   | Resolves a => Ok a
   end, [c]).

Definition then_ {C A B : Type} (m : Traced C A) (k : A -> Traced C B) : Traced C B :=
  match m with
  | (Ok a, made) => let (r, more) := k a in (r, made ++ more)
  | (Err message, made) => (Err message, made)
  end.

Notation "x <~ m ;; k" := (then_ m (fun x => k))
  (at level 61, m at next level, right associativity).

(** ** The subscription route *)

Module Subscription.

(** The claims of the signed-in user the route reads. *)
Record Claims : Type := mkClaims {
  sub : string;
  email : option string;
  first_name : option string;
  last_name : option string
}.

Record UserRow : Type := mkUserRow {
  stripeSubscriptionId : option string
}.

(** A subscription of Stripe as the route reads it: its identifier, and
    [latest_invoice?.payment_intent?.client_secret], undefined when a link
    of the chain is missing. *)
Record StripeSubscription : Type := mkStripeSubscription {
  id : string;
  client_secret : option string
}.

Record Services : Type := mkServices {
  getUser : string -> Outcome (option UserRow);
  retrieve : string -> Outcome StripeSubscription;
  createCustomer : string -> option string -> Outcome string;
  createSubscription : string -> string -> Outcome StripeSubscription;
  updateUserStripeInfo : string -> string -> string -> Outcome unit
}.

Inductive Call : Type :=
| GetUser (userId : string)
| Retrieve (subscriptionId : string)
| CreateCustomer (email : string) (name : option string)
| CreateSubscription (customer price : string)
| UpdateUserStripeInfo (userId customerId subscriptionId : string).

(** A text that is present and not empty. *)
Definition truthy (t : option string) : option string :=
  match t with
  | Some s => if String.eqb s EmptyString then None else Some s
  | None => None
  end.

Definition or_empty (t : option string) : string :=
  match truthy t with
  | Some s => s
  | None => EmptyString
  end.

Fixpoint trim_start (l : list ascii) : list ascii :=
  match l with
  | c :: rest => if Json.is_js_ws c then trim_start rest else l
  | [] => []
  end.

(** String.prototype.trim, on ASCII text. *)
Definition trim (s : string) : string :=
  string_of_list_ascii (rev (trim_start (rev (trim_start (list_ascii_of_string s))))).

(** The name given to the new customer: first and last name joined by a
    space and trimmed, undefined when nothing is left. *)
Definition customerName (claims : Claims) : option string :=
  truthy (Some (trim (or_empty (first_name claims) ++ " " ++ or_empty (last_name claims))%string)).

Definition subscriptionBody (s : StripeSubscription) : json :=
  JObject (("subscriptionId", JString (id s))
           :: match client_secret s with
              | Some secret => [("clientSecret", JString secret)]
              | None => []
              end).

Definition errorMessageBody (message : string) : json :=
  JObject [("error", JObject [("message", JString message)])].

(** POST /api/get-or-create-subscription, past the authentication
    middleware; [priceEnv] is the STRIPE_PRICE_ID of the environment. *)
Definition getOrCreateSubscription (services : Services) (priceEnv : option string)
  (claims : Claims) : Routes.HttpResponse * list Call :=
  match truthy (email claims) with
  | None => (Routes.res_json 400 (errorMessageBody "No user email on file"), [])
  | Some userEmail =>
      let (outcome, made) :=
        (userData <~ call (GetUser (sub claims)) (getUser services (sub claims)) ;;
         match truthy (match userData with
                       | Some row => stripeSubscriptionId row
                       | None => None
                       end) with
         | Some subscriptionId =>
             subscription <~ call (Retrieve subscriptionId)
                               (retrieve services subscriptionId) ;;
             ret (Routes.res_json 200 (subscriptionBody subscription))
         | None =>
             let price := match truthy priceEnv with
                          | Some p => p
                          | None => "price_development_testing"
                          end in
             customer <~ call (CreateCustomer userEmail (customerName claims))
                           (createCustomer services userEmail (customerName claims)) ;;
             subscription <~ call (CreateSubscription customer price)
                               (createSubscription services customer price) ;;
             _ <~ call (UpdateUserStripeInfo (sub claims) customer (id subscription))
                    (updateUserStripeInfo services (sub claims) customer
                       (id subscription)) ;;
             ret (Routes.res_json 200 (subscriptionBody subscription))
         end) in
      (match outcome with
       | Ok response => response
       | Err message => Routes.res_json 400 (errorMessageBody message)
       end, made)
  end.

Definition creates (c : Call) : bool :=
  match c with
  | CreateCustomer _ _ | CreateSubscription _ _ => true
  | _ => false
  end.

Definition writes (c : Call) : bool :=
  match c with
  | UpdateUserStripeInfo _ _ _ => true
  | _ => false
  end.

End Subscription.

(** ** The upload route of the health photos *)

Module PhotoUpload.

(** A file multer leaves in [req.files]. *)
Record Photo : Type := mkPhoto {
  file : Summary.UploadedFile;
  originalname : string
}.

Record Services : Type := mkServices {
  uploadFile : Photo -> Outcome string;
  trySetObjectEntityAclPolicy : string -> string -> Outcome string
}.

(** The policy is private, with the user as owner. *)
Inductive Call : Type :=
| UploadFile (photo : Photo)
| SetPrivateAcl (objectPath owner : string).

(** The for-of loop; [uploadedPhotos] holds the final paths so far. *)
Fixpoint uploadAll (services : Services) (userId : string) (files : list Photo)
  (uploadedPhotos : list string) : Traced Call (list string) :=
  match files with
  | [] => ret uploadedPhotos
  | photo :: rest =>
      objectPath <~ call (UploadFile photo) (uploadFile services photo) ;;
      finalPath <~ call (SetPrivateAcl objectPath userId)
                     (trySetObjectEntityAclPolicy services objectPath userId) ;;
      uploadAll services userId rest (uploadedPhotos ++ [finalPath])
  end.

Definition photoUrlsBody (urls : list string) : json :=
  JObject [("photoUrls", JArray (map JString urls))].

(** POST /api/upload/health-photos, past the authentication and upload
    middlewares; [files] is [req.files], absent when [None]. *)
Definition uploadHealthPhotos (services : Services) (userId : string)
  (files : option (list Photo)) : Routes.HttpResponse * list Call :=
  match files with
  | None | Some [] => (Routes.res_json 400 (Routes.errorBody "No files uploaded"), [])
  | Some files =>
      let (outcome, made) := uploadAll services userId files [] in
      (match outcome with
       | Ok uploadedPhotos => Routes.res_json 200 (photoUrlsBody uploadedPhotos)
       | Err _ => Routes.res_json 500 (Routes.errorBody "Failed to upload photos")
       end, made)
  end.

Definition uploads (c : Call) : bool :=
  match c with
  | UploadFile _ => true
  | SetPrivateAcl _ _ => false
  end.

End PhotoUpload.

(** * Properties *)

(** ** The rule-based classifier and the wizard *)

Module AssessmentProps.

Import Assessment.

Lemma nextUrgency_classify (current : option Urgency) (category : Urgency) :
  nextUrgency current category = Some (classify current category).
Proof. destruct current as [[]|], category; reflexivity. Qed.

(** C1.  On every toggle-on, for every current urgency (or none) and every
    bucket of the new symptom, the urgency stored by handleSymptomCheck is
    the one the classifier of the specification gives: the new bucket when
    there is no current urgency, emergency when the new bucket is emergency,
    urgent when the new bucket is urgent and the current urgency is routine,
    the current urgency otherwise. *)
Theorem handleSymptomCheck_classifies :
  forall (s : Session) (symptom : string) (category : Urgency),
    urgency (assessment (handleSymptomCheck symptom category s))
    = Some (classify (urgency (assessment s)) category)
    /\ classify None category = category
    /\ (forall current, classify (Some current) emergency = emergency)
    /\ classify (Some routine) urgent = urgent
    /\ (forall current,
          category <> emergency ->
          ~ (category = urgent /\ current = routine) ->
          classify (Some current) category = current).
Proof.
  intros s symptom category. split.
  - unfold handleSymptomCheck. simpl. apply nextUrgency_classify.
  - repeat split.
    intros current Hne Hnu.
    destruct category, current; simpl; try reflexivity; try congruence.
    exfalso. apply Hnu. split; reflexivity.
Qed.

Lemma highest_snoc (l : list Urgency) (b : Urgency) :
  highest (l ++ [b]) = Some (classify (highest l) b).
Proof.
  induction l as [|a l IH]; simpl.
  - reflexivity.
  - rewrite IH. destruct (highest l) as [h|]; simpl.
    + destruct h, a, b; reflexivity.
    + destruct a, b; reflexivity.
Qed.

(** [highest] does name the highest-priority bucket of a list: it is one of
    its buckets and none of them ranks above it. *)
Lemma highest_is_maximum (l : list Urgency) (h : Urgency) :
  highest l = Some h <-> In h l /\ forall b, In b l -> rank b <= rank h.
Proof.
  revert h. induction l as [|a l IH]; intros h; simpl.
  - split; [discriminate | intros [[] _]].
  - destruct (highest l) as [m|] eqn:Hm.
    + destruct (IH m) as [IH1 _]. destruct (IH1 eq_refl) as [Hin Hmax].
      split.
      * intros Heq. injection Heq as Heq.
        destruct (Nat.ltb_spec (rank m) (rank a)); subst h.
        -- split; [now left|]. intros b [->|Hb]; [lia|]. specialize (Hmax b Hb). lia.
        -- split; [now right|]. intros b [->|Hb]; [lia|]. now apply Hmax.
      * intros [Hin' Hmax']. f_equal.
        assert (Hrank : forall x y : Urgency, rank x = rank y -> x = y)
          by (intros [] []; simpl; intros; congruence || lia).
        destruct (Nat.ltb_spec (rank m) (rank a)).
        -- destruct Hin' as [->|Hin']; [reflexivity|].
           apply Hrank. specialize (Hmax h Hin'). specialize (Hmax' a (or_introl eq_refl)). lia.
        -- apply Hrank. specialize (Hmax' m (or_intror Hin)).
           destruct Hin' as [<-|Hin']; [lia|]. specialize (Hmax h Hin'). lia.
    + assert (l = []) as -> by (destruct l as [|x l']; [reflexivity|]; simpl in Hm;
        destruct (highest l'); discriminate).
      split.
      * intros Heq. injection Heq as ->. split; [now left|].
        intros b [->|[]]. lia.
      * intros [[->|[]] _]. reflexivity.
Qed.

Lemma bucketsOf_snoc (l : list string) (symptom : string) (category : Urgency) :
  bucketOf symptom = Some category ->
  bucketsOf (l ++ [symptom]) = bucketsOf l ++ [category].
Proof.
  intros H. unfold bucketsOf. rewrite flat_map_app. simpl. rewrite H. reflexivity.
Qed.

Lemma handleSymptomCheck_never_downgrades (s : Session) (symptom : string)
  (category : Urgency) :
  rankOf (urgency (assessment s))
  <= rankOf (urgency (assessment (handleSymptomCheck symptom category s))).
Proof.
  unfold handleSymptomCheck. simpl. rewrite nextUrgency_classify.
  destruct (urgency (assessment s)) as [[]|], category; simpl; lia.
Qed.

Lemma selectAll_snoc (pre : list (string * Urgency)) (click : string * Urgency)
  (s : Session) :
  selectAll (pre ++ [click]) s = select (selectAll pre s) click.
Proof. unfold selectAll. rewrite fold_left_app. reflexivity. Qed.

(** The invariant of a run of clicks: both lists grow by the clicked
    phrases, and the urgency stays the highest bucket of the phrases. *)
Lemma selectAll_invariant (clicks : list (string * Urgency)) :
  Forall canned clicks ->
  forall s : Session,
    urgency (assessment s) = highest (bucketsOf (symptoms (assessment s))) ->
    symptoms (assessment (selectAll clicks s))
      = symptoms (assessment s) ++ map fst clicks
    /\ selectedSymptoms (selectAll clicks s) = selectedSymptoms s ++ map fst clicks
    /\ urgency (assessment (selectAll clicks s))
       = highest (bucketsOf (symptoms (assessment (selectAll clicks s)))).
Proof.
  induction 1 as [|click clicks Hc _ IH]; intros s Hs; simpl.
  - rewrite !app_nil_r. auto.
  - destruct click as [symptom category]. unfold canned in Hc. simpl in Hc.
    destruct (IH (select s (symptom, category))) as (H1 & H2 & H3).
    + unfold select, handleSymptomCheck. simpl.
      rewrite (bucketsOf_snoc _ _ _ Hc), highest_snoc, nextUrgency_classify, Hs.
      reflexivity.
    + unfold selectAll in *. simpl. repeat split.
      * rewrite H1. unfold select, handleSymptomCheck. simpl.
        rewrite <- app_assoc. reflexivity.
      * rewrite H2. unfold select, handleSymptomCheck. simpl.
        rewrite <- app_assoc. reflexivity.
      * exact H3.
Qed.

(** C2.  From a session with nothing selected, after any sequence of clicks
    on canned symptoms (no removal, no reset) the derived urgency is the
    highest-priority bucket among the buckets of the selected symptoms, and
    no click of the sequence lowers the derived urgency. *)
Theorem derivedUrgency_is_highest_bucket :
  forall (s0 : Session) (clicks : list (string * Urgency)),
    assessment s0 = mkLocalAssessment [] None ->
    selectedSymptoms s0 = [] ->
    Forall canned clicks ->
    selectedSymptoms (selectAll clicks s0) = map fst clicks
    /\ symptoms (assessment (selectAll clicks s0)) = map fst clicks
    /\ urgency (assessment (selectAll clicks s0))
       = highest (bucketsOf (selectedSymptoms (selectAll clicks s0)))
    /\ urgency (assessment (selectAll clicks s0)) = highest (map snd clicks)
    /\ forall pre click post,
         clicks = pre ++ click :: post ->
         rankOf (urgency (assessment (selectAll pre s0)))
         <= rankOf (urgency (assessment (selectAll (pre ++ [click]) s0))).
Proof.
  intros s0 clicks Ha Hsel Hc.
  destruct (selectAll_invariant clicks Hc s0) as (H1 & H2 & H3).
  { rewrite Ha. reflexivity. }
  rewrite Ha in H1. rewrite Hsel in H2. simpl in H1, H2.
  assert (Hb : bucketsOf (map fst clicks) = map snd clicks).
  { clear - Hc. induction Hc as [|[x c] l Hx _ IH]; simpl; [reflexivity|].
    unfold canned in Hx. simpl in Hx. rewrite Hx. simpl. f_equal. exact IH. }
  repeat split.
  - exact H2.
  - exact H1.
  - rewrite H3, H1, H2. reflexivity.
  - rewrite H3, H1, Hb. reflexivity.
  - intros pre click post _. rewrite selectAll_snoc.
    apply handleSymptomCheck_never_downgrades.
Qed.

Lemma derivedUrgency_is_highest_bucket_witness :
  let clicks := [("Minor scratching", routine); ("Persistent vomiting", urgent)] in
  urgency (assessment (selectAll clicks initialSession)) = Some urgent
  /\ selectedSymptoms (selectAll clicks initialSession)
     = ["Minor scratching"; "Persistent vomiting"].
Proof.
  intros clicks.
  destruct (derivedUrgency_is_highest_bucket initialSession clicks)
    as (H1 & _ & _ & H4 & _).
  - reflexivity.
  - reflexivity.
  - repeat constructor.
  - split; [rewrite H4; reflexivity | rewrite H1; reflexivity].
Defined.

(** *** Start over *)

(** C3, as stated, fails: from the local-result step, start over leaves the
    session at step 0 (the intro), which is not step 1. *)
Lemma resetAssessment_lands_on_intro :
  currentStep atLocalResult = 2
  /\ currentStep (resetAssessment atLocalResult) = 0
  /\ currentStep (resetAssessment atLocalResult) <> 1.
Proof. repeat split. discriminate. Qed.

(** C3, amended.  Start over empties selectedSymptoms and the local
    assessment, sets the derived urgency to null, empties the free-text
    fields (duration, severity, current behaviour, the four vital signs),
    also clears the selected dog and the AI assessment, and puts the session
    in step 0, the intro. *)
Theorem resetAssessment_resets :
  forall s : Session,
    selectedSymptoms (resetAssessment s) = []
    /\ assessment (resetAssessment s) = mkLocalAssessment [] None
    /\ duration (resetAssessment s) = EmptyString
    /\ severity (resetAssessment s) = EmptyString
    /\ currentBehavior (resetAssessment s) = EmptyString
    /\ vitalSigns (resetAssessment s)
       = mkVitalSigns EmptyString EmptyString EmptyString EmptyString
    /\ selectedDogId (resetAssessment s) = EmptyString
    /\ aiAssessment (resetAssessment s) = None
    /\ currentStep (resetAssessment s) = 0
    /\ isOpen (resetAssessment s) = isOpen s.
Proof. intros s. repeat split. Qed.

(** *** Presentation mapper *)

(** C4.  getRecommendation is total on the three urgency values and a
    function of the urgency alone: for each of emergency, urgent and routine
    it returns a descriptor, whose action label is the one of the table and
    whose title carries the title tone of the table (letter case apart); it
    returns none for a null urgency; and two sessions with the same urgency
    get the same descriptor. *)
Theorem getRecommendation_total_and_pure :
  (forall (s : Session) (u : Urgency),
     urgency (assessment s) = Some u ->
     exists r : Recommendation,
       getRecommendation s = Some r
       /\ lower (action r) = lower (specActionLabel u)
       /\ occurs_in (lower (specTitleTone u)) (lower (title r)) = true)
  /\ (forall s : Session,
        urgency (assessment s) = None -> getRecommendation s = None)
  /\ (forall s1 s2 : Session,
        urgency (assessment s1) = urgency (assessment s2) ->
        getRecommendation s1 = getRecommendation s2).
Proof.
  split; [|split].
  - intros s u Hu. unfold getRecommendation. rewrite Hu.
    destruct u; eexists; (split; [reflexivity|]); split; reflexivity.
  - intros s Hu. unfold getRecommendation. rewrite Hu. reflexivity.
  - intros s1 s2 H. unfold getRecommendation. rewrite H. reflexivity.
Qed.

Lemma getRecommendation_total_and_pure_witness :
  (exists r : Recommendation,
     getRecommendation atLocalResult = Some r
     /\ lower (action r) = "call emergency vet now")
  /\ getRecommendation (setIsOpen false atLocalResult)
     = getRecommendation atLocalResult.
Proof.
  destruct getRecommendation_total_and_pure as (Htotal & _ & Hpure).
  split.
  - destruct (Htotal atLocalResult emergency eq_refl) as (r & Hr & Ha & _).
    exists r. split; [exact Hr | exact Ha].
  - apply Hpure. reflexivity.
Defined.

(** *** The list of selected symptoms *)

Lemma includes_In (x : string) (l : list string) :
  includes x l = true <-> In x l.
Proof.
  unfold includes. rewrite existsb_exists. split.
  - intros (y & Hy & He). apply String.eqb_eq in He. now subst.
  - intros H. exists x. split; [exact H | apply String.eqb_refl].
Qed.

Lemma includes_false (x : string) (l : list string) :
  includes x l = false <-> ~ In x l.
Proof.
  rewrite <- includes_In. destruct (includes x l); split; congruence.
Qed.

Lemma filter_absent (x : string) (l : list string) :
  ~ In x l -> filter (fun s => negb (String.eqb s x)) l = l.
Proof.
  induction l as [|a l IH]; simpl; intros H; [reflexivity|].
  destruct (String.eqb_spec a x) as [->|Hne]; simpl.
  - exfalso. apply H. now left.
  - f_equal. apply IH. intros Hin. apply H. now right.
Qed.

Lemma toggle_present (x : string) (l : list string) :
  In x l -> toggle x l = filter (fun s => negb (String.eqb s x)) l.
Proof.
  intros H. unfold toggle. apply includes_In in H. rewrite H. reflexivity.
Qed.

Lemma toggle_absent (x : string) (l : list string) :
  ~ In x l -> toggle x l = l ++ [x].
Proof.
  intros H. unfold toggle. apply includes_false in H. rewrite H. reflexivity.
Qed.

Lemma toggle_NoDup (x : string) (l : list string) :
  NoDup l -> NoDup (toggle x l).
Proof.
  intros Hl. unfold toggle. destruct (includes x l) eqn:Hx.
  - apply NoDup_filter. exact Hl.
  - apply includes_false in Hx.
    apply NoDup_app; [exact Hl | repeat constructor; intros [] |].
    intros y Hy [<-|[]]. exact (Hx Hy).
Qed.

(** C9, as stated, fails: picking the same phrase twice records it twice.
    The second pick is reachable in the interface by closing the dialog at
    the result step and starting the assessment again, which keeps
    selectedSymptoms. *)
Lemma selectedSymptoms_duplicate :
  selectedSymptoms
    (run [Select "Minor scratching" routine; Select "Minor scratching" routine]
       initialSession)
  = ["Minor scratching"; "Minor scratching"]
  /\ selectedSymptoms
       (handleSymptomCheck "Minor scratching" routine
          (setCurrentStep 1
             (startAssessment
                (setIsOpen false
                   (handleSymptomCheck "Minor scratching" routine
                      (setCurrentStep 1 (startAssessment initialSession)))))))
     = ["Minor scratching"; "Minor scratching"]
  /\ ~ NoDup ["Minor scratching"; "Minor scratching"].
Proof.
  repeat split. intros H. inversion H as [|x l Hin _]. apply Hin. now left.
Qed.

Lemma run_NoDup (ops : list Op) :
  forall s : Session,
    NoDup (selectedSymptoms s) ->
    selectsUnselected s ops = true ->
    NoDup (selectedSymptoms (run ops s)).
Proof.
  induction ops as [|op ops IH]; intros s Hs Hops; simpl; [exact Hs|].
  simpl in Hops. apply andb_true_iff in Hops as [Hop Hrest].
  apply IH; [|exact Hrest].
  destruct op as [x c|x]; simpl.
  - apply negb_true_iff, includes_false in Hop.
    apply NoDup_app; [exact Hs | repeat constructor; intros [] |].
    intros y Hy [<-|[]]. exact (Hop Hy).
  - apply toggle_NoDup. exact Hs.
Qed.

(** C9, amended.  Starting from a session whose selectedSymptoms has no
    duplicate (a fresh or reset one has none), after every sequence of
    toggles and of picks of phrases that are not selected when picked, each
    phrase occurs at most once in selectedSymptoms.  The list is in insertion
    order: a pick, and a toggle of an absent phrase, put the phrase last; a
    toggle of a present phrase removes it and keeps the others in order. *)
Theorem selectedSymptoms_NoDup :
  forall (s : Session) (ops : list Op),
    NoDup (selectedSymptoms s) ->
    selectsUnselected s ops = true ->
    NoDup (selectedSymptoms (run ops s))
    /\ (forall s' x c,
          selectedSymptoms (step s' (Select x c)) = selectedSymptoms s' ++ [x])
    /\ (forall s' x,
          ~ In x (selectedSymptoms s') ->
          selectedSymptoms (step s' (Toggle x)) = selectedSymptoms s' ++ [x])
    /\ (forall s' x,
          In x (selectedSymptoms s') ->
          selectedSymptoms (step s' (Toggle x))
          = filter (fun y => negb (String.eqb y x)) (selectedSymptoms s')).
Proof.
  intros s ops Hs Hops. split; [|split; [|split]].
  - apply run_NoDup; assumption.
  - reflexivity.
  - intros s' x Hx. simpl. apply toggle_absent. exact Hx.
  - intros s' x Hx. simpl. apply toggle_present. exact Hx.
Qed.

Lemma selectedSymptoms_NoDup_witness :
  NoDup
    (selectedSymptoms
       (run [Select "Minor scratching" routine; Toggle "Unusual lethargy";
             Toggle "Minor scratching"; Select "Minor scratching" routine]
          (resetAssessment atLocalResult))).
Proof.
  apply (selectedSymptoms_NoDup (resetAssessment atLocalResult)
           [Select "Minor scratching" routine; Toggle "Unusual lethargy";
            Toggle "Minor scratching"; Select "Minor scratching" routine]).
  - constructor.
  - reflexivity.
Defined.

(** C10.  toggleSymptom removes every occurrence of the phrase when the list
    holds it (the others keep their order) and puts it last when the list
    does not; so on a list without the phrase, toggling twice gives the list
    back, and the session with it. *)
Theorem toggleSymptom_round_trip :
  forall (s : Session) (x : string),
    (In x (selectedSymptoms s) ->
       selectedSymptoms (toggleSymptom x s)
       = filter (fun y => negb (String.eqb y x)) (selectedSymptoms s)
       /\ ~ In x (selectedSymptoms (toggleSymptom x s))
       /\ forall y, y <> x ->
            count_occ string_dec (selectedSymptoms (toggleSymptom x s)) y
            = count_occ string_dec (selectedSymptoms s) y)
    /\ (~ In x (selectedSymptoms s) ->
          selectedSymptoms (toggleSymptom x s) = selectedSymptoms s ++ [x]
          /\ selectedSymptoms (toggleSymptom x (toggleSymptom x s)) = selectedSymptoms s
          /\ toggleSymptom x (toggleSymptom x s) = s).
Proof.
  intros s x. split.
  - intros Hin. simpl. rewrite (toggle_present _ _ Hin). split; [reflexivity|]. split.
    + intros H. apply filter_In in H as [_ H].
      rewrite String.eqb_refl in H. discriminate.
    + intros y Hy. clear Hin. induction (selectedSymptoms s) as [|a l IH]; simpl; [reflexivity|].
      destruct (String.eqb_spec a x) as [->|Hne]; simpl.
      * destruct (string_dec x y) as [<-|_]; [congruence | exact IH].
      * destruct (string_dec a y); rewrite IH; reflexivity.
  - intros Hnot.
    assert (Htwice : toggle x (toggle x (selectedSymptoms s)) = selectedSymptoms s).
    { rewrite (toggle_absent _ _ Hnot).
      rewrite toggle_present by (apply in_or_app; right; now left).
      rewrite filter_app. simpl. rewrite String.eqb_refl. simpl.
      rewrite app_nil_r. apply filter_absent. exact Hnot. }
    split; [|split].
    + simpl. apply toggle_absent. exact Hnot.
    + simpl. exact Htwice.
    + destruct s. unfold toggleSymptom, setSelectedSymptoms. simpl in *.
      rewrite Htwice. reflexivity.
Qed.

Lemma toggleSymptom_round_trip_witness :
  toggleSymptom "Unusual lethargy" (toggleSymptom "Unusual lethargy" atLocalResult)
  = atLocalResult.
Proof.
  destruct (toggleSymptom_round_trip atLocalResult "Unusual lethargy") as [_ H].
  apply H. simpl. intros [H'|[]]. discriminate H'.
Defined.

End AssessmentProps.

(** ** The orchestrator *)

Module GeminiProps.

Import Json Gemini.

Lemma performEmergencyAssessment_outcome (g : Model) (d : EmergencyData) :
  performEmergencyAssessment g d
  = match failureCause (g (EmergencyRequest d)), g (EmergencyRequest d) with
    | Some cause, _ => Err (FailedToPerformEmergencyAssessment cause)
    | None, GenerateResolves (Some text) =>
        match JSON_parse text with
        | Some v => Ok v
        | None => Err (FailedToPerformEmergencyAssessment InvalidJSON)
        end
    | None, _ => Err (FailedToPerformEmergencyAssessment EmptyResponse)
    end.
Proof.
  unfold performEmergencyAssessment, JSON_parse_or_throw.
  destruct (g (EmergencyRequest d)) as [|[text|]]; simpl; try reflexivity.
  destruct (trim_is_empty text); simpl; [reflexivity|].
  destruct (JSON_parse text); reflexivity.
Qed.

Lemma analyzeSymptoms_outcome (g : Model) (d : SymptomData) :
  analyzeSymptoms g d
  = match failureCause (g (SymptomsRequest d)), g (SymptomsRequest d) with
    | Some cause, _ => Err (FailedToAnalyzeSymptoms cause)
    | None, GenerateResolves (Some text) =>
        match JSON_parse text with
        | Some v => Ok v
        | None => Err (FailedToAnalyzeSymptoms InvalidJSON)
        end
    | None, _ => Err (FailedToAnalyzeSymptoms EmptyResponse)
    end.
Proof.
  unfold analyzeSymptoms, JSON_parse_or_throw.
  destruct (g (SymptomsRequest d)) as [|[text|]]; simpl; try reflexivity.
  destruct (trim_is_empty text); simpl; [reflexivity|].
  destruct (JSON_parse text); reflexivity.
Qed.

Lemma analyzeHealthPhoto_outcome (g : Model) (b m : string) (c : option string) :
  analyzeHealthPhoto g b m c
  = match failureCause (g (PhotoRequest b m c)), g (PhotoRequest b m c) with
    | Some cause, _ => Err (FailedToAnalyzePhoto cause)
    | None, GenerateResolves (Some text) =>
        match JSON_parse text with
        | Some v => Ok v
        | None => Err (FailedToAnalyzePhoto InvalidJSON)
        end
    | None, _ => Err (FailedToAnalyzePhoto EmptyResponse)
    end.
Proof.
  unfold analyzeHealthPhoto, JSON_parse_or_throw.
  destruct (g (PhotoRequest b m c)) as [|[text|]]; simpl; try reflexivity.
  destruct (trim_is_empty text); simpl; [reflexivity|].
  destruct (JSON_parse text); reflexivity.
Qed.

Ltac settle_outcome o :=
  unfold accepted; destruct o as [|[text|]]; simpl;
  [ split; [discriminate | intros (t & H & _); discriminate]
  | destruct (trim_is_empty text) eqn:Ht; simpl;
    [ split; [discriminate | intros (t & H & Hb & _); injection H as <-; congruence]
    | destruct (JSON_parse text) as [w|] eqn:Hp;
      [ split;
        [ intros H; injection H as <-; exists text; auto
        | intros (t & H & _ & Hv); injection H as <-; congruence ]
      | split;
        [ discriminate | intros (t & H & _ & Hv); injection H as <-; congruence ] ] ]
  | split; [discriminate | intros (t & H & _); discriminate] ].

(** C6, as stated, fails: a body that is JSON but has not the declared
    shape is returned to the caller as the result, also when it holds only
    part of the members. *)
Lemma unvalidated_body_is_returned :
  performEmergencyAssessment (Examples.answering "{}") Examples.emergencyData
  = Ok (JObject [])
  /\ isEmergencyAssessment (JObject []) = false
  /\ performEmergencyAssessment (Examples.answering Examples.partialBody)
       Examples.emergencyData
     = Ok (JObject [("urgencyLevel", JString "emergency")])
  /\ isEmergencyAssessment (JObject [("urgencyLevel", JString "emergency")]) = false
  /\ analyzeSymptoms (Examples.answering "[]") Examples.symptomData = Ok (JArray [])
  /\ isSymptomAnalysis (JArray []) = false
  /\ analyzeHealthPhoto (Examples.answering "null") "bytes" "image/png" None = Ok JNull
  /\ isPhotoAnalysis JNull = false.
Proof. repeat split. Qed.

(** C6, amended.  Each of the three functions returns a value exactly when
    the model resolved with a body that is not blank and that JSON.parse
    accepts, and the value is the parsed body as it is, whatever its shape;
    the orchestrator checks no shape (the schema is only sent to the model
    with the request).  Only a rejected call, an empty body and a body that
    is not JSON are failures. *)
Theorem orchestrator_returns_parsed_body :
  forall (g : Model) (v : json),
    (forall d, performEmergencyAssessment g d = Ok v
               <-> accepted (g (EmergencyRequest d)) v)
    /\ (forall d, analyzeSymptoms g d = Ok v
                  <-> accepted (g (SymptomsRequest d)) v)
    /\ (forall b m c, analyzeHealthPhoto g b m c = Ok v
                      <-> accepted (g (PhotoRequest b m c)) v).
Proof.
  intros g v. split; [|split].
  - intros d. rewrite performEmergencyAssessment_outcome.
    settle_outcome (g (EmergencyRequest d)).
  - intros d. rewrite analyzeSymptoms_outcome.
    settle_outcome (g (SymptomsRequest d)).
  - intros b m c. rewrite analyzeHealthPhoto_outcome.
    settle_outcome (g (PhotoRequest b m c)).
Qed.

End GeminiProps.

(** ** A failed AI assessment request *)

Module RequestProps.

Import Assessment.

Lemma performEmergencyAssessment_failing (g : Gemini.Model) (d : Gemini.EmergencyData) :
  failing (g (Gemini.EmergencyRequest d)) = true ->
  exists cause,
    Gemini.failureCause (g (Gemini.EmergencyRequest d)) = Some cause
    /\ Gemini.performEmergencyAssessment g d
       = Err (Gemini.FailedToPerformEmergencyAssessment cause).
Proof.
  unfold failing. intros H.
  rewrite GeminiProps.performEmergencyAssessment_outcome.
  destruct (Gemini.failureCause (g (Gemini.EmergencyRequest d))) as [cause|];
    [|discriminate].
  exists cause. split; reflexivity.
Qed.

(** With a failing model the route answers with an error body and a status
    outside 2xx, whatever the request and the storage. *)
Lemma emergencyAssessmentRoute_failing (storage : Routes.Storage) (now : Z)
  (g : Gemini.Model) (dogId : string) (data : option Routes.ClientAssessmentData) :
  (forall request, failing (g request) = true) ->
  exists code message,
    Routes.emergencyAssessmentRoute storage now g dogId data
    = Routes.res_json code (Routes.errorBody message)
    /\ is_2xx code = false.
Proof.
  intros Hg. unfold Routes.emergencyAssessmentRoute.
  destruct data as [data|]; [|eexists _, _; split; reflexivity].
  destruct (String.eqb dogId EmptyString); [eexists _, _; split; reflexivity|].
  destruct (Routes.getDog storage dogId) as [|[dog|]]; simpl;
    try (eexists _, _; split; reflexivity).
  destruct (Routes.getDogHealthRecords storage dogId) as [|records]; simpl;
    [eexists _, _; split; reflexivity|].
  match goal with
  | |- context [Gemini.performEmergencyAssessment g ?d] =>
      destruct (performEmergencyAssessment_failing g d (Hg _)) as (cause & _ & ->)
  end.
  simpl. eexists _, _; split; reflexivity.
Qed.

Section Failure.

Variable apiRequest : ApiRequest.
Hypothesis apiRequest_rejects : rejects_failures apiRequest.

(** C5.  When the model call fails (at the transport layer, with an empty
    body, or with a body that does not parse), performEmergencyAssessment
    rejects with its failure error naming the cause and returns no result,
    the route answers with an error body outside 2xx, and, the request
    helper rejecting such replies and network failures, the session keeps
    its step, its local result and its recommendation, its selection and
    its previous AI assessment: the handler ends normally having only shown
    a toast. *)
Theorem ai_failure_keeps_session :
  forall (storage : Routes.Storage) (now : Z) (generateContent : Gemini.Model)
         (post : string -> Routes.ClientAssessmentData -> FetchOutcome)
         (s : Session),
    (forall request, failing (generateContent request) = true) ->
    (forall dogId data,
       post dogId data = NetworkError
       \/ post dogId data = served storage now generateContent dogId data) ->
    (forall data, exists cause,
        Gemini.performEmergencyAssessment generateContent data
        = Err (Gemini.FailedToPerformEmergencyAssessment cause))
    /\ currentStep (performAIAssessment apiRequest post s) = currentStep s
    /\ assessment (performAIAssessment apiRequest post s) = assessment s
    /\ getRecommendation (performAIAssessment apiRequest post s) = getRecommendation s
    /\ selectedSymptoms (performAIAssessment apiRequest post s) = selectedSymptoms s
    /\ aiAssessment (performAIAssessment apiRequest post s) = aiAssessment s
    /\ isOpen (performAIAssessment apiRequest post s) = isOpen s
    /\ exists t, toasts (performAIAssessment apiRequest post s) = toasts s ++ [t]
                 /\ toastVariant t = destructive.
Proof.
  intros storage now g post s Hg Hpost. split.
  { intros data.
    destruct (performEmergencyAssessment_failing g data (Hg _)) as (cause & _ & H).
    exists cause. exact H. }
  assert (Hrej : apiRequest (post (selectedDogId s) (assessmentData s)) = None).
  { destruct apiRequest_rejects as [Hnet Hhttp].
    destruct (Hpost (selectedDogId s) (assessmentData s)) as [-> | ->]; [exact Hnet|].
    unfold served.
    destruct (emergencyAssessmentRoute_failing storage now g (selectedDogId s)
                (Some (assessmentData s)) Hg) as (code & message & -> & Hcode).
    apply Hhttp. exact Hcode. }
  unfold performAIAssessment.
  destruct (String.eqb (selectedDogId s) EmptyString
            || (List.length (selectedSymptoms s) =? 0)%nat).
  - repeat split. eexists. split; reflexivity.
  - rewrite Hrej. simpl. repeat split. eexists. split; reflexivity.
Qed.

End Failure.

Lemma apiRequest_of_spec_rejects : rejects_failures apiRequest_of_spec.
Proof.
  split; [reflexivity|]. intros r H. unfold apiRequest_of_spec. rewrite H. reflexivity.
Qed.

Lemma empty_body_is_failing :
  forall request, failing (Examples.answering EmptyString request) = true.
Proof. intros request. reflexivity. Qed.

Lemma ai_failure_keeps_session_witness :
  currentStep
    (performAIAssessment apiRequest_of_spec
       (served Examples.storage Examples.now (Examples.answering EmptyString))
       Examples.withDog)
  = 2
  /\ urgency
       (assessment
          (performAIAssessment apiRequest_of_spec
             (served Examples.storage Examples.now (Examples.answering EmptyString))
             Examples.withDog))
     = Some emergency.
Proof.
  destruct (ai_failure_keeps_session apiRequest_of_spec apiRequest_of_spec_rejects
              Examples.storage Examples.now (Examples.answering EmptyString)
              (served Examples.storage Examples.now (Examples.answering EmptyString))
              Examples.withDog empty_body_is_failing
              (fun dogId data => or_intror eq_refl))
    as (_ & Hstep & Hlocal & _).
  split.
  - rewrite Hstep. reflexivity.
  - rewrite Hlocal. reflexivity.
Defined.

(** The assumption on the helper is needed: were every reply handed to the
    handler, the error reply of the route would be read as a result and the
    session would move to step 3 with no assessment. *)
Lemma ai_failure_advances_without_rejection :
  currentStep
    (performAIAssessment apiRequest_passing
       (served Examples.storage Examples.now (Examples.answering EmptyString))
       Examples.withDog)
  = 3
  /\ aiAssessment
       (performAIAssessment apiRequest_passing
          (served Examples.storage Examples.now (Examples.answering EmptyString))
          Examples.withDog)
     = None.
Proof. split; reflexivity. Qed.

End RequestProps.

(** ** The age of the dog *)

Module RoutesProps.

Import Routes.
Local Open Scope Z_scope.

Lemma age_floor (now birth : Z) (b : string) (w : option string) (a : Z) :
  a * MS_PER_YEAR <= now - birth < (a + 1) * MS_PER_YEAR ->
  age now (mkDog b (Some birth) w) = Some a.
Proof.
  intros H. unfold age. simpl. f_equal. unfold MS_PER_YEAR in *.
  symmetry. apply Z.div_unique with (r := now - birth - a * (1000 * 60 * 60 * 24 * 365)); lia.
Qed.

Lemma months_before_35 (y m : Z) :
  1 <= m <= 12 ->
  months_before 35 y m = if m =? 12 then (y - 2, 1) else (y - 3, m + 1).
Proof.
  intros Hm. unfold months_before.
  destruct (Z.eqb_spec m 12) as [->|Hne]; f_equal;
    Z.to_euclidean_division_equations; lia.
Qed.

(** Decides the tests on numerals left by a case analysis on the month. *)
Ltac decide_tests :=
  repeat match goal with
         | |- context [?a <=? ?b] =>
             let v := eval vm_compute in (a <=? b) in
             match v with
             | true => change (a <=? b) with true
             | false => change (a <=? b) with false
             end
         | |- context [?a =? ?b] =>
             let v := eval vm_compute in (a =? b) in
             match v with
             | true => change (a =? b) with true
             | false => change (a =? b) with false
             end
         end;
  cbv beta iota zeta.

(** Thirty-five calendar months span between 1064 and 1068 days. *)
Lemma days_in_35_months (y m d : Z) :
  1 <= m <= 12 ->
  1064 <= days_from_civil y m d
          - days_from_civil (fst (months_before 35 y m)) (snd (months_before 35 y m)) d
       <= 1068.
Proof.
  intros Hm. rewrite (months_before_35 y m Hm).
  assert (Hcases : m = 1 \/ m = 2 \/ m = 3 \/ m = 4 \/ m = 5 \/ m = 6 \/ m = 7
                   \/ m = 8 \/ m = 9 \/ m = 10 \/ m = 11 \/ m = 12) by lia.
  clear Hm. unfold days_from_civil.
  repeat (destruct Hcases as [-> | Hcases]); try subst m;
    decide_tests; cbv [fst snd]; decide_tests;
    Z.to_euclidean_division_equations; lia.
Qed.

(** C7.  The age the routes compute is the floor of the time elapsed since
    the birth date, counted in years of 365 days: it is the one integer [a]
    with a years elapsed and a + 1 years not yet elapsed (no rounding up);
    there is no age without a birth date.  For a birth date exactly two
    years and eleven months before now (same day of the month, same time of
    the day) the age is 2.  This age is the one both routes put into the
    data handed to the model call. *)
Theorem age_is_floor_of_elapsed_years :
  (forall (now birth : Z) (dog : Dog),
     birthDate dog = Some birth ->
     exists a,
       age now dog = Some a
       /\ a * MS_PER_YEAR <= now - birth < (a + 1) * MS_PER_YEAR)
  /\ (forall (now : Z) (dog : Dog), birthDate dog = None -> age now dog = None)
  /\ (forall (y m d t : Z) (b : string) (w : option string),
        1 <= m <= 12 ->
        1 <= d <= days_in_month y m ->
        d <= days_in_month (fst (months_before 35 y m)) (snd (months_before 35 y m)) ->
        0 <= t < MS_PER_DAY ->
        age (utc_ms y m d t)
            (mkDog b
               (Some (utc_ms (fst (months_before 35 y m)) (snd (months_before 35 y m)) d t))
               w)
        = Some 2)
  /\ (forall storage now g dogId data dog records,
        String.eqb dogId EmptyString = false ->
        getDog storage dogId = StorageResolves (Some dog) ->
        getDogHealthRecords storage dogId = StorageResolves records ->
        exists full,
          Gemini.age (Gemini.dogInfo full) = age now dog
          /\ emergencyAssessmentRoute storage now g dogId (Some data)
             = reply (assessment <- await_ai (Gemini.performEmergencyAssessment g full) ;;
                      Ok (res_json 200 assessment))
                     (res_json 500 (errorBody "Failed to perform emergency assessment")))
  /\ (forall storage now g dogId data dog,
        String.eqb dogId EmptyString = false ->
        getDog storage dogId = StorageResolves (Some dog) ->
        exists full,
          Gemini.sd_age full = age now dog
          /\ analyzeSymptomsRoute storage now g dogId (Some data)
             = reply (analysis <- await_ai (Gemini.analyzeSymptoms g full) ;;
                      Ok (res_json 200 analysis))
                     (res_json 500 (errorBody "Failed to analyze symptoms"))).
Proof.
  split; [|split; [|split; [|split]]].
  - intros now birth dog Hb. unfold age. rewrite Hb. eexists. split; [reflexivity|].
    unfold MS_PER_YEAR. Z.to_euclidean_division_equations. lia.
  - intros now dog Hb. unfold age. rewrite Hb. reflexivity.
  - intros y m d t b w Hm _ _ Ht. apply age_floor.
    pose proof (days_in_35_months y m d Hm) as Hdays.
    unfold utc_ms, MS_PER_YEAR, MS_PER_DAY in *. lia.
  - intros storage now g dogId data dog records Hid Hdog Hrec.
    eexists. split; [|unfold emergencyAssessmentRoute; rewrite Hid, Hdog, Hrec; simpl;
                      reflexivity].
    reflexivity.
  - intros storage now g dogId data dog Hid Hdog.
    eexists. split; [|unfold analyzeSymptomsRoute; rewrite Hid, Hdog; simpl;
                      reflexivity].
    reflexivity.
Qed.

Lemma age_is_floor_of_elapsed_years_witness :
  age Examples.now Examples.rex = Some 2
  /\ 2 * MS_PER_YEAR <= Examples.now - utc_ms 2022 7 15 0 < 3 * MS_PER_YEAR.
Proof.
  destruct age_is_floor_of_elapsed_years as (Hfloor & _ & Hmonths & _).
  split.
  - apply (Hmonths 2025 6 15 0 "Labrador Retriever" (Some "65.50")).
    + lia.
    + vm_compute. split; discriminate.
    + vm_compute. discriminate.
    + vm_compute. split; [discriminate | reflexivity].
  - destruct (Hfloor Examples.now (utc_ms 2022 7 15 0) Examples.rex eq_refl)
      as (a & Ha & Hbounds).
    vm_compute in Ha. injection Ha as <-. exact Hbounds.
Defined.

(** A year of the calendar is not always 365 days: on the eve of its fourth
    birthday, a dog born on 2020-01-01 is already given the age 4. *)
Lemma age_counts_years_of_365_days :
  age (utc_ms 2023 12 31 0) (mkDog "Beagle" (Some (utc_ms 2020 1 1 0)) None) = Some 4.
Proof. reflexivity. Qed.

(** Under one year the age is 0, which the prompt renders as unknown. *)
Lemma age_zero_is_rendered_unknown :
  age (utc_ms 2025 6 15 0) (mkDog "Beagle" (Some (utc_ms 2025 1 1 0)) None) = Some 0
  /\ Gemini.promptAge (Some 0) = "unknown"
  /\ Gemini.promptAge (Some 2) = "2 years".
Proof. repeat split. Qed.

End RoutesProps.

(** ** Batch photo analysis *)

Module HealthEntryProps.

Import HealthEntry.

Lemma analyzeLoop_successes (fetch : File -> string -> PhotoFetch) (context : string)
  (files : list File) :
  no_rejection fetch context files = true ->
  forall analyses,
    analyzeLoop fetch context files analyses
    = Ok (analyses ++ successes fetch context files).
Proof.
  induction files as [|file files IH]; simpl; intros Hno analyses.
  - rewrite app_nil_r. reflexivity.
  - apply andb_true_iff in Hno as [Hfile Hrest].
    destruct (fetch file context) as [|[] [analysis|]]; try discriminate.
    + rewrite (IH Hrest). rewrite <- app_assoc. reflexivity.
    + apply IH. exact Hrest.
    + apply IH. exact Hrest.
Qed.

Lemma successes_and_failures (fetch : File -> string -> PhotoFetch) (context : string)
  (files : list File) :
  List.length (successes fetch context files)
  + List.length (filter (failed fetch context) files)
  = List.length files.
Proof.
  induction files as [|file files IH]; simpl; [reflexivity|].
  unfold failed at 1.
  destruct (fetch file context) as [|[] [analysis|]]; simpl; lia.
Qed.

(** C8, as stated, fails.  With three photos of which one is refused, the
    dialog ends with the two analyses and a toast that counts them, and it
    ends the same whether the second or the third photo was the refused one:
    nothing reports which photo failed, nor that one did.  And when the
    request of one photo rejects, the analyses obtained before it are
    dropped: the stored list keeps its previous content and only a failure
    toast is shown. *)
Lemma batch_reports_no_failed_photo :
  photoAnalyses (analyzePhotos Examples.secondRefused Examples.threePhotos)
  = [Examples.analysisX; Examples.analysisY]
  /\ toasts (analyzePhotos Examples.secondRefused Examples.threePhotos)
     = [mkToast "Photo Analysis Complete" "Analyzed 2 photo(s) successfully." plain]
  /\ analyzePhotos Examples.secondRefused Examples.threePhotos
     = analyzePhotos Examples.thirdRefused Examples.threePhotos
  /\ filter (failed Examples.secondRefused "limping since monday")
       (selectedFiles Examples.threePhotos) = [Examples.photo2]
  /\ filter (failed Examples.thirdRefused "limping since monday")
       (selectedFiles Examples.threePhotos) = [Examples.photo3]
  /\ photoAnalyses (analyzePhotos Examples.secondUnreachable Examples.threePhotos) = []
  /\ toasts (analyzePhotos Examples.secondUnreachable Examples.threePhotos)
     = [mkToast "Photo Analysis Failed" "Unable to analyze photos. Please try again."
          destructive].
Proof. repeat split. Qed.

(** C8, amended.  In a batch where no request rejects (each photo gets a
    response, refused or not, and every accepted one carries JSON), a
    refused photo neither stops nor discards the analyses of the others: the
    stored list is exactly the analyses of the accepted photos, in the order
    of the photos, and the toast gives their number.  The refused photos are
    the remaining ones by count only; no report names them. *)
Theorem batch_keeps_successful_analyses :
  forall (fetch : File -> string -> PhotoFetch) (d : Dialog),
    selectedFiles d <> [] ->
    no_rejection fetch (description d) (selectedFiles d) = true ->
    photoAnalyses (analyzePhotos fetch d)
    = successes fetch (description d) (selectedFiles d)
    /\ toasts (analyzePhotos fetch d)
       = toasts d
         ++ [mkToast "Photo Analysis Complete"
               ("Analyzed "
                ++ string_of_nat
                     (List.length (successes fetch (description d) (selectedFiles d)))
                ++ " photo(s) successfully.")%string
               plain]
    /\ isAnalyzingPhotos (analyzePhotos fetch d) = false
    /\ selectedFiles (analyzePhotos fetch d) = selectedFiles d
    /\ List.length (photoAnalyses (analyzePhotos fetch d))
       + List.length (filter (failed fetch (description d)) (selectedFiles d))
       = List.length (selectedFiles d).
Proof.
  intros fetch d Hfiles Hno.
  assert (Hrun : analyzePhotos fetch d
                 = setIsAnalyzingPhotos false
                     (toast (mkToast "Photo Analysis Complete"
                               ("Analyzed "
                                ++ string_of_nat
                                     (List.length
                                        (successes fetch (description d) (selectedFiles d)))
                                ++ " photo(s) successfully.")%string
                               plain)
                        (setPhotoAnalyses
                           (successes fetch (description d) (selectedFiles d))
                           (setIsAnalyzingPhotos true d)))).
  { unfold analyzePhotos.
    destruct (selectedFiles d) as [|file files] eqn:Hsel; [congruence|].
    simpl List.length. simpl Nat.eqb. cbv iota.
    rewrite (analyzeLoop_successes _ _ _ Hno []). reflexivity. }
  rewrite Hrun. simpl. repeat split.
  apply successes_and_failures.
Qed.

Lemma batch_keeps_successful_analyses_witness :
  photoAnalyses (analyzePhotos Examples.thirdRefused Examples.threePhotos)
  = [Examples.analysisX; Examples.analysisY].
Proof.
  destruct (batch_keeps_successful_analyses Examples.thirdRefused Examples.threePhotos)
    as (H & _).
  - discriminate.
  - reflexivity.
  - rewrite H. reflexivity.
Defined.

End HealthEntryProps.

(** ** The catalogue and the rendered interface of the assessment *)

Module AssessmentUIProps.

Import Assessment AssessmentUI.

Lemma symptomsOf_bucketOf (category : Urgency) (symptom : string) :
  In symptom (symptomsOf category) -> bucketOf symptom = Some category.
Proof.
  intros Hin. destruct category; simpl in Hin;
    repeat (destruct Hin as [<-|Hin]; [reflexivity|]); destruct Hin.
Qed.

(** X1.  The catalogue is well formed: the thirty phrases of the three lists
    are pairwise different, so a phrase belongs to one list only, and the
    category a button passes to handleSymptomCheck is the bucket found by
    looking the phrase up in the lists. *)
Theorem catalogue_is_a_partition :
  NoDup (emergencySymptoms ++ urgentSymptoms ++ routineSymptoms)
  /\ (forall category symptom,
        In symptom (symptomsOf category) <-> bucketOf symptom = Some category)
  /\ (forall symptom,
        bucketOf symptom = None
        <-> ~ In symptom (emergencySymptoms ++ urgentSymptoms ++ routineSymptoms)).
Proof.
  assert (Hnodup : NoDup (emergencySymptoms ++ urgentSymptoms ++ routineSymptoms)).
  { apply (NoDup_count_occ string_dec). intros x.
    destruct (in_dec string_dec x
                (emergencySymptoms ++ urgentSymptoms ++ routineSymptoms)) as [Hin|Hout].
    - simpl in Hin.
      repeat (destruct Hin as [<-|Hin]; [vm_compute; lia|]). destruct Hin.
    - apply (count_occ_not_In string_dec) in Hout. lia. }
  split; [exact Hnodup|]. split.
  - intros category symptom. split.
    + apply symptomsOf_bucketOf.
    + unfold bucketOf. intros H.
      destruct (includes symptom emergencySymptoms) eqn:He.
      { injection H as <-. apply (proj1 (AssessmentProps.includes_In _ _)). exact He. }
      destruct (includes symptom urgentSymptoms) eqn:Hu.
      { injection H as <-. apply (proj1 (AssessmentProps.includes_In _ _)). exact Hu. }
      destruct (includes symptom routineSymptoms) eqn:Hr; [|discriminate].
      injection H as <-. apply (proj1 (AssessmentProps.includes_In _ _)). exact Hr.
  - intros symptom. unfold bucketOf. rewrite !in_app_iff.
    destruct (includes symptom emergencySymptoms) eqn:He.
    { split; [discriminate|]. intros H. exfalso. apply H. left.
      apply (proj1 (AssessmentProps.includes_In _ _)). exact He. }
    destruct (includes symptom urgentSymptoms) eqn:Hu.
    { split; [discriminate|]. intros H. exfalso. apply H. right. left.
      apply (proj1 (AssessmentProps.includes_In _ _)). exact Hu. }
    destruct (includes symptom routineSymptoms) eqn:Hr.
    { split; [discriminate|]. intros H. exfalso. apply H. right. right.
      apply (proj1 (AssessmentProps.includes_In _ _)). exact Hr. }
    split; [|reflexivity].
    intros _ [H|[H|H]]; apply (proj2 (AssessmentProps.includes_In _ _)) in H; congruence.
Qed.

Lemma click_keeps_invariant (s : Session) (c : Control) :
  reachable_invariant s -> reachable_invariant (click s c).
Proof.
  intros (Hstep & (earlier & Hsel) & Hcanned & Hdog & Hai & Han & Hd & Hsev & Hb & Hv & Ht).
  assert (Hreset : forall t,
            selectedSymptoms t = [] ->
            assessment t = mkLocalAssessment [] None ->
            currentStep t = 0 ->
            selectedDogId t = EmptyString -> aiAssessment t = None ->
            isAnalyzing t = false -> duration t = EmptyString ->
            severity t = EmptyString -> currentBehavior t = EmptyString ->
            vitalSigns t = emptyVitalSigns -> toasts t = [] ->
            reachable_invariant t).
  { intros t H1 H2 H3 H4 H5 H6 H7 H8 H9 H10 H11. unfold reachable_invariant.
    rewrite H1, H2, H3. split; [|split; [|repeat split; auto]].
    - left. split; [lia | reflexivity].
    - exists []. reflexivity. }
  assert (Hsame : forall t,
            currentStep t = currentStep s \/ (currentStep s <= 1 /\ currentStep t <= 1) ->
            assessment t = assessment s -> selectedSymptoms t = selectedSymptoms s ->
            selectedDogId t = selectedDogId s -> aiAssessment t = aiAssessment s ->
            isAnalyzing t = isAnalyzing s -> duration t = duration s ->
            severity t = severity s -> currentBehavior t = currentBehavior s ->
            vitalSigns t = vitalSigns s -> toasts t = toasts s ->
            reachable_invariant t).
  { intros t H0 H1 H2 H3 H4 H5 H6 H7 H8 H9 H10. unfold reachable_invariant.
    rewrite H1, H2, H3, H4, H5, H6, H7, H8, H9, H10.
    split; [|split; [|repeat split; auto]].
    - destruct Hstep as [[Hle He]|[H2' He]].
      + left. split; [destruct H0 as [->|[_ ?]]; lia | exact He].
      + right. split; [destruct H0 as [->|[? _]]; lia | exact He].
    - exists earlier. exact Hsel. }
  unfold click.
  destruct c as [| |category index| | | | |open].
  - (* StartAssessment *)
    unfold reachable_invariant, startAssessment. simpl.
    split; [|split; [|repeat split; auto]].
    + left. split; [lia | reflexivity].
    + exists (selectedSymptoms s). rewrite app_nil_r. reflexivity.
  - destruct (panel s) as [[]|] eqn:Hp; try (apply Hsame; auto; fail).
    unfold panel in Hp. destruct (isOpen s); [|discriminate].
    destruct (currentStep s) as [|[|[|n]]] eqn:Hc; try discriminate;
      try (destruct (getRecommendation s); discriminate).
    apply Hsame; simpl; auto; right; lia.
  - destruct (panel s) as [[]|] eqn:Hp; try (apply Hsame; auto; fail).
    destruct (nth_error (symptomsOf category) index) as [symptom|] eqn:Hn;
      [|apply Hsame; auto].
    apply nth_error_In in Hn.
    unfold panel in Hp. destruct (isOpen s); [|discriminate].
    destruct (currentStep s) as [|[|[|n]]] eqn:Hc; try discriminate;
      try (destruct (getRecommendation s); discriminate).
    destruct Hstep as [[_ He]|[H2' _]]; [|lia].
    unfold reachable_invariant, handleSymptomCheck. simpl. rewrite He. simpl.
    rewrite AssessmentProps.nextUrgency_classify. simpl.
    rewrite He in Hsel. simpl in Hsel. rewrite app_nil_r in Hsel.
    split; [|split; [|split; [|repeat split; auto]]].
    + right. split; [reflexivity|]. exists category, symptom. split; [exact Hn|reflexivity].
    + exists (selectedSymptoms s). reflexivity.
    + apply Forall_app. split; [exact Hcanned|]. constructor; [|constructor].
      rewrite (symptomsOf_bucketOf _ _ Hn). discriminate.
  - destruct (panel s) as [[]|] eqn:Hp; try (apply Hsame; auto; fail).
    unfold panel in Hp. destruct (isOpen s); [|discriminate].
    destruct (currentStep s) as [|[|[|n]]] eqn:Hc; try discriminate;
      try (destruct (getRecommendation s); discriminate).
    apply Hsame; simpl; auto; right; lia.
  - destruct (panel s) as [[]|] eqn:Hp; apply Hsame; auto.
  - destruct (panel s) as [[]|] eqn:Hp; try (apply Hsame; auto; fail).
    apply Hreset; try reflexivity; simpl; assumption.
  - destruct (panel s) as [[]|] eqn:Hp; apply Hsame; auto.
  - apply Hsame; auto.
Qed.

Lemma interact_invariant (controls : list Control) :
  forall s, reachable_invariant s -> reachable_invariant (interact controls s).
Proof.
  induction controls as [|c controls IH]; intros s Hs; simpl; [exact Hs|].
  apply IH. apply click_keeps_invariant. exact Hs.
Qed.

Lemma initialSession_invariant : reachable_invariant initialSession.
Proof.
  unfold reachable_invariant. simpl. split; [|split; [|repeat split; auto]].
  - left. split; [lia | reflexivity].
  - exists []. reflexivity.
Qed.

(** X2.  The dialog is never blank: in every state reached through the
    controls from the initial one, the step is 0, 1 or 2 and an open dialog
    renders one of its three panels (at step 2 the recommendation exists). *)
Theorem dialog_never_blank :
  forall controls : list Control,
    currentStep (interact controls initialSession) <= 2
    /\ (panel (interact controls initialSession) = None
        <-> isOpen (interact controls initialSession) = false).
Proof.
  intros controls.
  destruct (interact_invariant controls _ initialSession_invariant) as (Hstep & _).
  set (s := interact controls initialSession) in *.
  unfold panel, getRecommendation.
  destruct Hstep as [[Hle He]|[H2 (category & symptom & _ & He)]].
  - split; [lia|]. destruct (isOpen s); [|tauto].
    destruct (currentStep s) as [|[|n]]; [| |lia]; split; discriminate.
  - split; [lia|]. rewrite H2, He. simpl.
    destruct (isOpen s); [|tauto]. destruct category; split; discriminate.
Qed.

(** X3.  Through the controls the local assessment never holds more than one
    symptom: it is empty at steps 0 and 1 and holds the one picked phrase at
    step 2, and the derived urgency is the bucket of that phrase. *)
Theorem local_assessment_holds_one_symptom :
  forall controls : list Control,
    List.length (symptoms (assessment (interact controls initialSession))) <= 1
    /\ urgency (assessment (interact controls initialSession))
       = match symptoms (assessment (interact controls initialSession)) with
         | [] => None
         | symptom :: _ => bucketOf symptom
         end
    /\ (symptoms (assessment (interact controls initialSession)) = []
        <-> currentStep (interact controls initialSession) <= 1).
Proof.
  intros controls.
  destruct (interact_invariant controls _ initialSession_invariant) as (Hstep & _).
  set (s := interact controls initialSession) in *.
  destruct Hstep as [[Hle He]|[H2 (category & symptom & Hin & He)]]; rewrite He; simpl.
  - split; [lia|]. split; [reflexivity|]. tauto.
  - split; [lia|]. split.
    + symmetry. apply symptomsOf_bucketOf. exact Hin.
    + split; [discriminate | lia].
Qed.

(** X4.  No control leads to the AI request: in every state reached through
    the controls no dog is selected, so performAIAssessment would only show
    the missing-information toast, whatever the network does; the session
    never holds an AI assessment and never is at step 3. *)
Theorem ai_request_out_of_reach :
  forall (controls : list Control) (apiRequest : ApiRequest)
         (post : string -> Routes.ClientAssessmentData -> FetchOutcome),
    performAIAssessment apiRequest post (interact controls initialSession)
    = toast missingInformation (interact controls initialSession)
    /\ selectedDogId (interact controls initialSession) = EmptyString
    /\ aiAssessment (interact controls initialSession) = None
    /\ currentStep (interact controls initialSession) <> 3.
Proof.
  intros controls apiRequest post.
  destruct (interact_invariant controls _ initialSession_invariant)
    as (Hstep & _ & _ & Hdog & Hai & _).
  set (s := interact controls initialSession) in *.
  split; [|split; [exact Hdog | split; [exact Hai|]]].
  - unfold performAIAssessment. rewrite Hdog. reflexivity.
  - destruct Hstep as [[Hle _]|[H2 _]]; lia.
Qed.

(** X5.  selectedSymptoms outlives a restart: in every state reached through
    the controls it ends with the symptoms of the local assessment and holds
    catalogue phrases only, and the picks of an assessment that was closed
    and started again stay in front. *)
Theorem selectedSymptoms_outlive_restart :
  (forall controls : list Control,
     exists earlier,
       selectedSymptoms (interact controls initialSession)
       = earlier ++ symptoms (assessment (interact controls initialSession))
       /\ Forall (fun symptom => bucketOf symptom <> None)
            (selectedSymptoms (interact controls initialSession)))
  /\ selectedSymptoms
       (interact [StartAssessment; Continue; Symptom routine 0; Close;
                  StartAssessment; Continue; Symptom urgent 0]
          initialSession)
     = ["Minor scratching"; "Persistent vomiting"]
  /\ symptoms
       (assessment
          (interact [StartAssessment; Continue; Symptom routine 0; Close;
                     StartAssessment; Continue; Symptom urgent 0]
             initialSession))
     = ["Persistent vomiting"].
Proof.
  split; [|split; reflexivity].
  intros controls.
  destruct (interact_invariant controls _ initialSession_invariant)
    as (_ & (earlier & Hsel) & Hcanned & _).
  exists earlier. split; assumption.
Qed.

End AssessmentUIProps.

(** ** The AI request of the assessment component *)

Module RequestExtraProps.

Import Assessment AssessmentUI.

(** X6.  Without a selected dog, or without a selected symptom,
    performAIAssessment contacts nothing: whatever the helper and the
    network would do, it only adds the missing-information toast. *)
Theorem performAIAssessment_validates_first :
  forall (apiRequest : ApiRequest)
         (post : string -> Routes.ClientAssessmentData -> FetchOutcome) (s : Session),
    selectedDogId s = EmptyString \/ selectedSymptoms s = [] ->
    performAIAssessment apiRequest post s = toast missingInformation s.
Proof.
  intros apiRequest post s [H|H]; unfold performAIAssessment; rewrite H.
  - reflexivity.
  - simpl. rewrite orb_true_r. reflexivity.
Qed.

Lemma performAIAssessment_validates_first_witness :
  performAIAssessment apiRequest_passing
    (served Examples.storage Examples.now (Examples.answering "{}")) atLocalResult
  = toast missingInformation atLocalResult.
Proof.
  apply performAIAssessment_validates_first. left. reflexivity.
Defined.


Lemma performEmergencyAssessment_accepted (g : Gemini.Model)
  (d : Gemini.EmergencyData) (v : json) :
  Gemini.accepted (g (Gemini.EmergencyRequest d)) v ->
  Gemini.performEmergencyAssessment g d = Ok v.
Proof.
  intros (text & Hg & Hblank & Hparse).
  rewrite GeminiProps.performEmergencyAssessment_outcome, Hg. simpl.
  rewrite Hblank, Hparse. reflexivity.
Qed.

Section Success.

Variable apiRequest : ApiRequest.
Hypothesis apiRequest_passes : passes_success apiRequest.


End Success.

Lemma apiRequest_of_spec_passes : passes_success apiRequest_of_spec.
Proof. intros r H. unfold apiRequest_of_spec. rewrite H. reflexivity. Qed.


End RequestExtraProps.

(** ** The orchestrator and the routes beyond the claims *)

Module ServerExtraProps.

Import Routes.

(** X9.  generateHealthSummary never returns an empty summary: a text of the
    model is returned as it is unless it is empty, an absent or empty text
    is replaced by the fallback sentence, and the function rejects exactly
    when the call to the model does. *)
Theorem generateHealthSummary_never_empty :
  forall (g : Summary.SummaryModel) (d : Summary.DogData)
         (rs : list Summary.RecentRecord),
    (forall s, Summary.generateHealthSummary g d rs = Ok s -> s <> EmptyString)
    /\ (forall text,
          g d rs = Gemini.GenerateResolves (Some text) ->
          text <> EmptyString ->
          Summary.generateHealthSummary g d rs = Ok text)
    /\ (g d rs = Gemini.GenerateResolves None
        \/ g d rs = Gemini.GenerateResolves (Some EmptyString) ->
        Summary.generateHealthSummary g d rs = Ok Summary.fallbackSummary)
    /\ (is_ok_summary (Summary.generateHealthSummary g d rs) = false
        <-> g d rs = Gemini.GenerateRejects).
Proof.
  intros g d rs. unfold Summary.generateHealthSummary, is_ok_summary.
  destruct (g d rs) as [|[text|]]; simpl.
  - repeat split; try discriminate. intros [H|H]; discriminate.
  - destruct (String.eqb_spec text EmptyString) as [->|Hne].
    + repeat split; try discriminate.
      * intros s H. injection H as <-. discriminate.
      * intros t H. injection H as <-. congruence.
    + repeat split; try discriminate.
      * intros s H. injection H as <-. exact Hne.
      * intros t H _. injection H as <-. reflexivity.
      * intros [H|H]; [discriminate | injection H as ->; congruence].
  - repeat split; try discriminate.
    intros s H. injection H as <-. discriminate.
Qed.

(** X10.  What the prompts say about the age: a dog with no birth date, and
    a dog born less than 365 days ago (its age is 0, which is falsy), are
    described as of unknown age; from 365 days on the prompt gives the
    number of years. *)
Theorem young_dog_age_is_unknown :
  forall (now birth : Z) (dog : Dog),
    birthDate dog = Some birth ->
    ((0 <= now - birth < MS_PER_YEAR)%Z ->
       Gemini.promptAge (age now dog) = "unknown")
    /\ ((MS_PER_YEAR <= now - birth)%Z ->
          exists a,
            age now dog = Some a
            /\ (1 <= a)%Z
            /\ Gemini.promptAge (age now dog)
               = (NilZero.string_of_int (Z.to_int a) ++ " years")%string).
Proof.
  intros now birth dog Hb. unfold age. rewrite Hb. split.
  - intros H. unfold MS_PER_YEAR in *.
    replace ((now - birth) / (1000 * 60 * 60 * 24 * 365))%Z with 0%Z; [reflexivity|].
    symmetry. apply Z.div_small. lia.
  - intros H. eexists. split; [reflexivity|].
    assert (Ha : (1 <= (now - birth) / MS_PER_YEAR)%Z).
    { unfold MS_PER_YEAR in *. Z.to_euclidean_division_equations. lia. }
    split; [exact Ha|]. unfold Gemini.promptAge.
    destruct (Z.eqb_spec ((now - birth) / MS_PER_YEAR) 0) as [H0|_]; [lia|].
    reflexivity.
Qed.

Lemma young_dog_age_is_unknown_witness :
  Gemini.promptAge
    (age (utc_ms 2025 6 15 0) (mkDog "Beagle" (Some (utc_ms 2025 1 1 0)) None))
  = "unknown".
Proof.
  apply (young_dog_age_is_unknown (utc_ms 2025 6 15 0) (utc_ms 2025 1 1 0)
           (mkDog "Beagle" (Some (utc_ms 2025 1 1 0)) None) eq_refl).
  vm_compute. split; [discriminate | reflexivity].
Defined.

Lemma performEmergencyAssessment_result (g : Gemini.Model) (d : Gemini.EmergencyData)
  (v : json) :
  Gemini.performEmergencyAssessment g d = Ok v
  <-> Gemini.accepted (g (Gemini.EmergencyRequest d)) v.
Proof.
  rewrite GeminiProps.performEmergencyAssessment_outcome.
  GeminiProps.settle_outcome (g (Gemini.EmergencyRequest d)).
Qed.

Lemma emergencyAssessmentRoute_found (storage : Storage) (now : Z) (g : Gemini.Model)
  (dogId : string) (d : ClientAssessmentData) (dog : Dog) (records : list HealthRecord) :
  dogId <> EmptyString ->
  getDog storage dogId = StorageResolves (Some dog) ->
  getDogHealthRecords storage dogId = StorageResolves records ->
  emergencyAssessmentRoute storage now g dogId (Some d)
  = match Gemini.performEmergencyAssessment g (Summary.emergencyInput now dog records d) with
    | Ok v => res_json 200 v
    | Err _ => res_json 500 (errorBody "Failed to perform emergency assessment")
    end.
Proof.
  intros Hid Hdog Hrec. unfold emergencyAssessmentRoute.
  destruct (String.eqb_spec dogId EmptyString); [congruence|].
  rewrite Hdog, Hrec. unfold Summary.emergencyInput. cbn [bind await_storage].
  destruct (Gemini.performEmergencyAssessment g _); reflexivity.
Qed.

Lemma emergencyAssessmentRoute_cases (storage : Storage) (now : Z) (g : Gemini.Model)
  (dogId : string) (data : option ClientAssessmentData) :
  (exists d dog records v,
     data = Some d /\ dogId <> EmptyString
     /\ getDog storage dogId = StorageResolves (Some dog)
     /\ getDogHealthRecords storage dogId = StorageResolves records
     /\ Gemini.accepted
          (g (Gemini.EmergencyRequest (Summary.emergencyInput now dog records d))) v
     /\ emergencyAssessmentRoute storage now g dogId data = res_json 200 v)
  \/ (exists code message,
        In (code, message)
           [ (400, "Missing required fields: dogId and assessmentData");
             (404, "Dog not found");
             (500, "Failed to perform emergency assessment") ]
        /\ emergencyAssessmentRoute storage now g dogId data
           = res_json code (errorBody message)).
Proof.
  destruct data as [d|];
    [|right; eexists _, _; split; [left; reflexivity | reflexivity]].
  destruct (String.eqb_spec dogId EmptyString) as [->|Hne];
    [right; eexists _, _; split; [left; reflexivity | reflexivity]|].
  destruct (getDog storage dogId) as [|[dog|]] eqn:Hdog.
  - right. eexists _, _. split; [right; right; left; reflexivity|].
    unfold emergencyAssessmentRoute.
    destruct (String.eqb_spec dogId EmptyString); [congruence|]. rewrite Hdog. reflexivity.
  - destruct (getDogHealthRecords storage dogId) as [|records] eqn:Hrec.
    + right. eexists _, _. split; [right; right; left; reflexivity|].
      unfold emergencyAssessmentRoute.
      destruct (String.eqb_spec dogId EmptyString); [congruence|].
      rewrite Hdog, Hrec. reflexivity.
    + rewrite (emergencyAssessmentRoute_found storage now g dogId d dog records Hne Hdog Hrec).
      destruct (Gemini.performEmergencyAssessment g
                  (Summary.emergencyInput now dog records d)) as [v|e] eqn:Hp.
      * left. exists d, dog, records, v.
        apply performEmergencyAssessment_result in Hp. repeat split; auto.
      * right. eexists _, _. split; [right; right; left; reflexivity | reflexivity].
  - right. eexists _, _. split; [right; left; reflexivity|].
    unfold emergencyAssessmentRoute.
    destruct (String.eqb_spec dogId EmptyString); [congruence|]. rewrite Hdog. reflexivity.
Qed.


Lemma generateHealthSummary_never_empty_aux (g : Summary.SummaryModel)
  (d : Summary.DogData) (rs : list Summary.RecentRecord) :
  (exists summary,
     Summary.generateHealthSummary g d rs = Ok summary
     /\ summary <> EmptyString
     /\ g d rs <> Gemini.GenerateRejects)
  \/ (exists cause,
        Summary.generateHealthSummary g d rs
        = Err (Summary.FailedToGenerateHealthSummary cause)
        /\ g d rs = Gemini.GenerateRejects).
Proof.
  unfold Summary.generateHealthSummary.
  destruct (g d rs) as [|[text|]]; simpl.
  - right. eexists. split; reflexivity.
  - left. destruct (String.eqb_spec text EmptyString) as [->|Hne];
      eexists; (split; [reflexivity|]); split; try discriminate; assumption.
  - left. eexists. split; [reflexivity|]. split; discriminate.
Qed.

Lemma analyzeSymptoms_result (g : Gemini.Model) (d : Gemini.SymptomData) (v : json) :
  Gemini.analyzeSymptoms g d = Ok v <-> Gemini.accepted (g (Gemini.SymptomsRequest d)) v.
Proof.
  rewrite GeminiProps.analyzeSymptoms_outcome.
  GeminiProps.settle_outcome (g (Gemini.SymptomsRequest d)).
Qed.

Lemma analyzeHealthPhoto_result (g : Gemini.Model) (b m : string) (c : option string)
  (v : json) :
  Gemini.analyzeHealthPhoto g b m c = Ok v
  <-> Gemini.accepted (g (Gemini.PhotoRequest b m c)) v.
Proof.
  rewrite GeminiProps.analyzeHealthPhoto_outcome.
  GeminiProps.settle_outcome (g (Gemini.PhotoRequest b m c)).
Qed.

Lemma analyzeSymptomsRoute_found (storage : Storage) (now : Z) (g : Gemini.Model)
  (dogId : string) (d : ClientSymptomData) (dog : Dog) :
  dogId <> EmptyString ->
  getDog storage dogId = StorageResolves (Some dog) ->
  analyzeSymptomsRoute storage now g dogId (Some d)
  = match Gemini.analyzeSymptoms g (Summary.symptomInput now dog d) with
    | Ok v => res_json 200 v
    | Err _ => res_json 500 (errorBody "Failed to analyze symptoms")
    end.
Proof.
  intros Hid Hdog. unfold analyzeSymptomsRoute.
  destruct (String.eqb_spec dogId EmptyString); [congruence|].
  rewrite Hdog. unfold Summary.symptomInput. cbn [bind await_storage].
  destruct (Gemini.analyzeSymptoms g _); reflexivity.
Qed.

Lemma generateHealthSummaryRoute_found (storage : Summary.RowStorage) (now : Z)
  (g : Summary.SummaryModel) (dogId : string) (row : Summary.DogRow)
  (rows : list Summary.HealthRecordRow) :
  dogId <> EmptyString ->
  Summary.getDog storage dogId = StorageResolves (Some row) ->
  Summary.getDogHealthRecords storage dogId = StorageResolves rows ->
  Summary.generateHealthSummaryRoute storage now g dogId
  = match Summary.generateHealthSummary g
            (Summary.mkDogData (Summary.dogName row) (breed (Summary.dog row))
               (age now (Summary.dog row)) (weight (Summary.dog row)))
            (map (Summary.formatRecord now) (firstn 10 rows)) with
    | Ok summary => res_json 200 (JObject [("summary", JString summary)])
    | Err _ => res_json 500 (errorBody "Failed to generate health summary")
    end.
Proof.
  intros Hid Hdog Hrec. unfold Summary.generateHealthSummaryRoute.
  destruct (String.eqb_spec dogId EmptyString); [congruence|].
  rewrite Hdog, Hrec. cbn [bind Summary.await_storage].
  destruct (Summary.generateHealthSummary g _ _); reflexivity.
Qed.

(** X12.  A request that names no dog, or a dog the storage does not have
    (or cannot look up), never reaches the model: the replies of the
    emergency-assessment and analyze-symptoms routes are then the same
    whatever the model would answer. *)
Theorem model_not_consulted_without_dog :
  forall (storage : Storage) (now : Z) (g1 g2 : Gemini.Model) (dogId : string)
         (assessmentData : option ClientAssessmentData)
         (symptomData : option ClientSymptomData),
    (dogId = EmptyString
     \/ forall dog, getDog storage dogId <> StorageResolves (Some dog)) ->
    emergencyAssessmentRoute storage now g1 dogId assessmentData
    = emergencyAssessmentRoute storage now g2 dogId assessmentData
    /\ analyzeSymptomsRoute storage now g1 dogId symptomData
       = analyzeSymptomsRoute storage now g2 dogId symptomData
    /\ status (emergencyAssessmentRoute storage now g1 dogId assessmentData) <> 200
    /\ status (analyzeSymptomsRoute storage now g1 dogId symptomData) <> 200.
Proof.
  intros storage now g1 g2 dogId ad sd H.
  unfold emergencyAssessmentRoute, analyzeSymptomsRoute.
  destruct H as [->|H].
  - destruct ad, sd; simpl; repeat split; discriminate.
  - destruct (getDog storage dogId) as [|[dog|]] eqn:Hdog.
    + destruct ad, sd, (String.eqb dogId EmptyString); simpl; repeat split; discriminate.
    + exfalso. apply (H dog). reflexivity.
    + destruct ad, sd, (String.eqb dogId EmptyString); simpl; repeat split; discriminate.
Qed.

Lemma model_not_consulted_without_dog_witness :
  emergencyAssessmentRoute Examples.storage Examples.now (Examples.answering "{}")
    "dog-2" (Some (Assessment.assessmentData Examples.withDog))
  = emergencyAssessmentRoute Examples.storage Examples.now (Examples.answering "[]")
      "dog-2" (Some (Assessment.assessmentData Examples.withDog)).
Proof.
  apply (model_not_consulted_without_dog Examples.storage Examples.now
           (Examples.answering "{}") (Examples.answering "[]") "dog-2"
           (Some (Assessment.assessmentData Examples.withDog)) None).
  right. intros dog. discriminate.
Defined.



(** X14.  The replies of the health-summary route: it answers 200 exactly
    when the request names a dog the storage has, its records can be read,
    and the call to the model does not reject; the body is then an object
    with the one member summary, a text that is never empty.  The model is
    shown at most ten records, the first ten of the storage. *)
Theorem generateHealthSummaryRoute_replies :
  forall (storage : Summary.RowStorage) (now : Z) (g : Summary.SummaryModel)
         (dogId : string),
    (status (Summary.generateHealthSummaryRoute storage now g dogId) = 200
     <-> dogId <> EmptyString
         /\ exists row rows,
              Summary.getDog storage dogId = StorageResolves (Some row)
              /\ Summary.getDogHealthRecords storage dogId = StorageResolves rows
              /\ g (Summary.mkDogData (Summary.dogName row) (breed (Summary.dog row))
                      (age now (Summary.dog row)) (weight (Summary.dog row)))
                   (map (Summary.formatRecord now) (firstn 10 rows))
                 <> Gemini.GenerateRejects)
    /\ (status (Summary.generateHealthSummaryRoute storage now g dogId) = 200 ->
        exists summary,
          summary <> EmptyString
          /\ Summary.generateHealthSummaryRoute storage now g dogId
             = res_json 200 (JObject [("summary", JString summary)]))
    /\ In (status (Summary.generateHealthSummaryRoute storage now g dogId))
          [200; 400; 404; 500]
    /\ forall rows,
         List.length (map (Summary.formatRecord now) (firstn 10 rows)) <= 10.
Proof.
  intros storage now g dogId.
  assert (Hbound : forall rows,
            List.length (map (Summary.formatRecord now) (firstn 10 rows)) <= 10).
  { intros rows. rewrite length_map, length_firstn. apply Nat.le_min_l. }
  destruct (String.eqb_spec dogId EmptyString) as [->|Hid].
  { cbn. repeat split; try discriminate; auto.
    - intros [H _]. congruence. }
  destruct (Summary.getDog storage dogId) as [|[row|]] eqn:Hdog.
  1, 3: (assert (Hr : status (Summary.generateHealthSummaryRoute storage now g dogId) <> 200
                      /\ In (status (Summary.generateHealthSummaryRoute storage now g dogId))
                            [200; 400; 404; 500])
           by (unfold Summary.generateHealthSummaryRoute;
               destruct (String.eqb_spec dogId EmptyString); [congruence|];
               rewrite Hdog; simpl; split; [discriminate | auto]);
         destruct Hr as [Hne Hin];
         split; [split; [congruence | intros (_ & r & rs & H & _); discriminate]|];
         split; [congruence|]; split; [exact Hin | exact Hbound]).
  destruct (Summary.getDogHealthRecords storage dogId) as [|rows] eqn:Hrec.
  { assert (Hr : status (Summary.generateHealthSummaryRoute storage now g dogId) = 500).
    { unfold Summary.generateHealthSummaryRoute.
      destruct (String.eqb_spec dogId EmptyString); [congruence|].
      rewrite Hdog, Hrec. reflexivity. }
    rewrite Hr.
    split; [split; [discriminate | intros (_ & r & rs & _ & H & _); discriminate]|].
    split; [discriminate|]. split; [simpl; auto | exact Hbound]. }
  rewrite (generateHealthSummaryRoute_found storage now g dogId row rows Hid Hdog Hrec).
  destruct (generateHealthSummary_never_empty_aux g
              (Summary.mkDogData (Summary.dogName row) (breed (Summary.dog row))
                 (age now (Summary.dog row)) (weight (Summary.dog row)))
              (map (Summary.formatRecord now) (firstn 10 rows)))
    as [(summary & Hs & Hne & Hg) | (cause & He & Hg)].
  - rewrite Hs. simpl. split; [|split; [|split; [auto | exact Hbound]]].
    + split; [|reflexivity]. intros _. split; [exact Hid|].
      exists row, rows. auto.
    + intros _. exists summary. auto.
  - rewrite He. simpl. split; [|split; [|split; [auto | exact Hbound]]].
    + split; [discriminate|].
      intros (_ & r & rs & Hd' & Hr' & Hg').
      injection Hd' as <-. injection Hr' as <-. exfalso. apply Hg'. exact Hg.
    + discriminate.
Qed.

End ServerExtraProps.

(** ** The health entry form *)

Module FormExtraProps.

Import HealthEntry HealthEntryForm.

Lemma analyzePhotoRoute_cases (g : Gemini.Model) (file : option Summary.UploadedFile)
  (context : option string) :
  (exists uploaded v,
     file = Some uploaded
     /\ Gemini.accepted
          (g (Gemini.PhotoRequest (Summary.buffer uploaded) (Summary.mimetype uploaded)
                context)) v
     /\ Summary.analyzePhotoRoute g file context = Routes.res_json 200 v)
  \/ (exists code message,
        Assessment.is_2xx code = false
        /\ Summary.analyzePhotoRoute g file context
           = Routes.res_json code (Routes.errorBody message)).
Proof.
  unfold Summary.analyzePhotoRoute.
  destruct file as [uploaded|];
    [|right; exists 400, "No photo uploaded"; split; reflexivity].
  destruct (Gemini.analyzeHealthPhoto g (Summary.buffer uploaded)
              (Summary.mimetype uploaded) context) as [v|e] eqn:Hp; simpl.
  - left. exists uploaded, v. split; [reflexivity|]. split; [|reflexivity].
    apply ServerExtraProps.analyzeHealthPhoto_result. exact Hp.
  - right. exists 500, "Failed to analyze photo". split; reflexivity.
Qed.

Lemma servedPhoto_no_rejection (upload : File -> PhotoService.Upload) (g : Gemini.Model)
  (context : string) (files : list File) :
  no_rejection (PhotoService.servedPhoto upload g) context files = true.
Proof.
  unfold no_rejection. apply forallb_forall. intros file _.
  unfold PhotoService.servedPhoto. destruct (upload file) as [|uploaded]; [reflexivity|].
  destruct (analyzePhotoRoute_cases g uploaded (Some context))
    as [(u & v & _ & _ & ->)|(code & message & _ & ->)]; simpl.
  - reflexivity.
  - destruct (Assessment.is_2xx code); reflexivity.
Qed.

Lemma servedPhoto_successes (upload : File -> PhotoService.Upload) (g : Gemini.Model)
  (context : string) (files : list File) :
  Forall (fun v =>
            exists file uploaded,
              In file files
              /\ upload file = PhotoService.UploadPassed (Some uploaded)
              /\ Gemini.accepted
                   (g (Gemini.PhotoRequest (Summary.buffer uploaded)
                         (Summary.mimetype uploaded) (Some context))) v)
         (successes (PhotoService.servedPhoto upload g) context files).
Proof.
  induction files as [|file files IH]; simpl; [constructor|].
  assert (IH' : Forall (fun v =>
            exists f uploaded,
              In f (file :: files)
              /\ upload f = PhotoService.UploadPassed (Some uploaded)
              /\ Gemini.accepted
                   (g (Gemini.PhotoRequest (Summary.buffer uploaded)
                         (Summary.mimetype uploaded) (Some context))) v)
         (successes (PhotoService.servedPhoto upload g) context files)).
  { eapply Forall_impl; [|exact IH].
    intros v (f & u & Hin & Hu & Hacc). exists f, u. split; [now right | auto]. }
  unfold PhotoService.servedPhoto at 1.
  destruct (upload file) as [|uploaded] eqn:Hup; [exact IH'|].
  destruct (analyzePhotoRoute_cases g uploaded (Some context))
    as [(u & v & -> & Hacc & ->)|(code & message & Hcode & ->)]; simpl.
  - constructor; [|exact IH']. exists file, u. split; [now left | auto].
  - rewrite Hcode. exact IH'.
Qed.



Lemma acceptable_tests (type : File -> string) (file : File) :
  acceptable type file
  = String.prefix "image/" (type file) && negb (MAX_FILE_SIZE <? size file)%N.
Proof. unfold acceptable. rewrite N.leb_antisym. reflexivity. Qed.

Lemma keepValid_kept (type : File -> string) (files : list File) :
  forall d, fst (keepValid type files d) = filter (acceptable type) files.
Proof.
  induction files as [|file files IH]; intros d; cbn [keepValid filter];
    [reflexivity|].
  rewrite acceptable_tests.
  destruct (String.prefix "image/" (type file)); cbn [negb andb]; [|apply IH].
  destruct (MAX_FILE_SIZE <? size file)%N; cbn [negb]; [apply IH|].
  specialize (IH d). destruct (keepValid type files d) as [kept d'].
  cbn [fst] in *. f_equal. exact IH.
Qed.

Lemma keepValid_dialog (type : File -> string) (files : list File) :
  forall d,
    selectedFiles (snd (keepValid type files d)) = selectedFiles d
    /\ description (snd (keepValid type files d)) = description d
    /\ photoAnalyses (snd (keepValid type files d)) = photoAnalyses d
    /\ isAnalyzingPhotos (snd (keepValid type files d)) = isAnalyzingPhotos d
    /\ exists shown,
         toasts (snd (keepValid type files d)) = toasts d ++ shown
         /\ List.length shown + List.length (filter (acceptable type) files)
            = List.length files
         /\ Forall (fun t => toastVariant t = destructive) shown.
Proof.
  induction files as [|file files IH]; intros d; cbn [keepValid filter].
  - repeat split. exists []. rewrite app_nil_r. repeat split. constructor.
  - rewrite acceptable_tests.
    destruct (String.prefix "image/" (type file)); cbn [negb andb].
    + destruct (MAX_FILE_SIZE <? size file)%N; cbn [negb].
      * destruct (IH (toast (fileTooLarge file) d))
          as (H1 & H2 & H3 & H4 & shown & H5 & H6 & H7).
        split; [exact H1|]. split; [exact H2|]. split; [exact H3|]. split; [exact H4|].
        exists (fileTooLarge file :: shown). cbn [toast toasts] in H5.
        rewrite <- app_assoc in H5.
        split; [exact H5|]. split; [cbn [List.length]; lia|].
        constructor; [reflexivity | exact H7].
      * destruct (IH d) as (H1 & H2 & H3 & H4 & shown & H5 & H6 & H7).
        destruct (keepValid type files d) as [kept d']. cbn [snd] in *.
        split; [exact H1|]. split; [exact H2|]. split; [exact H3|]. split; [exact H4|].
        exists shown. split; [exact H5|]. split; [cbn [List.length]; lia | exact H7].
    + destruct (IH (toast (invalidFile file) d))
        as (H1 & H2 & H3 & H4 & shown & H5 & H6 & H7).
      split; [exact H1|]. split; [exact H2|]. split; [exact H3|]. split; [exact H4|].
      exists (invalidFile file :: shown). cbn [toast toasts] in H5.
      rewrite <- app_assoc in H5.
      split; [exact H5|]. split; [cbn [List.length]; lia|].
      constructor; [reflexivity | exact H7].
Qed.

(** X16.  One change of the file input: the files that are images of at
    most 5 MB are appended, in order, when the list stays within five files;
    otherwise none of them is, not even the first ones.  Every dropped file
    gets one destructive toast, and the overflow one more; the analyses and
    the description are left alone.  A change with no file list does
    nothing. *)
Theorem handleFileSelect_all_or_nothing :
  forall (type : File -> string) (files : list File) (d : Dialog),
    selectedFiles (handleFileSelect type (Some files) d)
    = (if (List.length (selectedFiles d)
           + List.length (filter (acceptable type) files) <=? 5)%nat
       then selectedFiles d ++ filter (acceptable type) files
       else selectedFiles d)
    /\ List.length (toasts (handleFileSelect type (Some files) d))
       = List.length (toasts d)
         + (List.length files - List.length (filter (acceptable type) files))
         + (if (List.length (selectedFiles d)
                + List.length (filter (acceptable type) files) <=? 5)%nat
            then 0 else 1)
    /\ (exists shown,
          toasts (handleFileSelect type (Some files) d) = toasts d ++ shown
          /\ Forall (fun t => toastVariant t = destructive) shown)
    /\ photoAnalyses (handleFileSelect type (Some files) d) = photoAnalyses d
    /\ description (handleFileSelect type (Some files) d) = description d
    /\ handleFileSelect type None d = d.
Proof.
  intros type files d. unfold handleFileSelect.
  pose proof (keepValid_kept type files d) as Hk.
  destruct (keepValid_dialog type files d) as (H1 & H2 & H3 & H4 & shown & H5 & H6 & H7).
  destruct (keepValid type files d) as [newFiles d1]. simpl in *. subst newFiles.
  rewrite Nat.leb_antisym.
  destruct (5 <? List.length (selectedFiles d)
                 + List.length (filter (acceptable type) files))%nat; simpl.
  - rewrite H1, H3, H2, H5, !length_app. simpl.
    split; [reflexivity|]. split; [lia|]. split; [|auto].
    exists (shown ++ [tooManyFiles]). rewrite app_assoc. split; [reflexivity|].
    apply Forall_app. split; [exact H7 | repeat constructor].
  - rewrite H1, H3, H2, H5, !length_app.
    split; [reflexivity|]. split; [lia|]. split; [|auto].
    exists shown. auto.
Qed.

Lemma filter_index_sublist {A : Type} (keep : nat -> bool) (P : A -> Prop) (l : list A) :
  forall i,
    List.length (filter_index keep i l) <= List.length l
    /\ (Forall P l -> Forall P (filter_index keep i l)).
Proof.
  induction l as [|x l IH]; intros i; simpl.
  - split; [lia | auto].
  - destruct (IH (S i)) as [Hlen Hall]. destruct (keep i); simpl.
    + split; [lia|]. intros H. inversion H; subst. constructor; auto.
    + split; [lia|]. intros H. inversion H; subst. auto.
Qed.

Lemma analyzePhotos_selectedFiles (fetch : File -> string -> PhotoFetch) (d : Dialog) :
  selectedFiles (analyzePhotos fetch d) = selectedFiles d.
Proof.
  unfold analyzePhotos.
  destruct (List.length (selectedFiles d) =? 0)%nat; [reflexivity|].
  destruct (analyzeLoop fetch (description d) (selectedFiles d) []); reflexivity.
Qed.

(** X17.  The dialog never holds more than five files, and every file it
    holds is an image of at most 5 MB: this holds from the initial dialog
    after every sequence of file choices, preview removals, edits of the
    description, batch analyses and saved entries. *)
Theorem selectedFiles_stay_valid :
  forall (type : File -> string) (events : list FileEvent),
    List.length (selectedFiles (handleAll type events initialDialog)) <= 5
    /\ Forall (fun file => acceptable type file = true)
         (selectedFiles (handleAll type events initialDialog)).
Proof.
  intros type events.
  assert (Hinv : forall d,
            List.length (selectedFiles d) <= 5
            /\ Forall (fun file => acceptable type file = true) (selectedFiles d) ->
            List.length (selectedFiles (handleAll type events d)) <= 5
            /\ Forall (fun file => acceptable type file = true)
                 (selectedFiles (handleAll type events d))).
  { induction events as [|e events IH]; intros d Hd; simpl; [exact Hd|].
    apply IH. destruct Hd as [Hlen Hall].
    destruct e as [[files|]|index|text|fetch|]; simpl.
    - unfold handleFileSelect.
      pose proof (keepValid_kept type files d) as Hk.
      destruct (keepValid_dialog type files d) as (H1 & _).
      destruct (keepValid type files d) as [newFiles d1]. simpl in *. subst newFiles.
      destruct (Nat.ltb_spec 5 (List.length (selectedFiles d)
                                + List.length (filter (acceptable type) files))); simpl.
      + rewrite H1. auto.
      + rewrite H1, length_app. split; [lia|].
        apply Forall_app. split; [exact Hall|].
        apply Forall_forall. intros file Hin. apply filter_In in Hin. tauto.
    - auto.
    - destruct (filter_index_sublist (fun i => negb (i =? index)%nat)
                  (fun file => acceptable type file = true) (selectedFiles d) 0)
        as [Hl Hf].
      split; [lia | auto].
    - auto.
    - rewrite analyzePhotos_selectedFiles. auto.
    - split; [lia | constructor]. }
  apply Hinv. simpl. split; [lia | constructor].
Qed.

Lemma filter_index_removes {A : Type} (index : nat) (l : list A) :
  forall k,
    filter_index (fun i => negb (i =? index)%nat) k l
    = if (index <? k)%nat then l
      else firstn (index - k) l ++ skipn (S (index - k)) l.
Proof.
  induction l as [|x l IH]; intros k; cbn [filter_index].
  - destruct (index <? k)%nat; [reflexivity|]. rewrite firstn_nil. reflexivity.
  - rewrite (IH (S k)).
    destruct (Nat.ltb_spec index k) as [Hlt|Hge].
    + destruct (Nat.eqb_spec k index); [lia|]. cbn [negb].
      destruct (Nat.ltb_spec index (S k)); [reflexivity | lia].
    + destruct (Nat.eqb_spec k index) as [->|Hne]; cbn [negb].
      * destruct (Nat.ltb_spec index (S index)); [|lia].
        rewrite Nat.sub_diag. reflexivity.
      * destruct (Nat.ltb_spec index (S k)); [lia|].
        replace (index - k) with (S (index - S k)) by lia. reflexivity.
Qed.

(** X18.  The cross of a preview removes the file at its position and no
    other: the files before it and after it stay, in order, so the list is
    one shorter; a position past the end removes nothing.  The stored photo
    analyses are not touched. *)
Theorem removeFile_removes_one :
  forall (index : nat) (d : Dialog),
    selectedFiles (removeFile index d)
    = firstn index (selectedFiles d) ++ skipn (S index) (selectedFiles d)
    /\ (index < List.length (selectedFiles d) ->
        S (List.length (selectedFiles (removeFile index d)))
        = List.length (selectedFiles d))
    /\ (forall j,
          nth_error (selectedFiles (removeFile index d)) j
          = nth_error (selectedFiles d) (if (j <? index)%nat then j else S j))
    /\ (List.length (selectedFiles d) <= index -> removeFile index d = d)
    /\ photoAnalyses (removeFile index d) = photoAnalyses d
    /\ toasts (removeFile index d) = toasts d.
Proof.
  intros index d.
  assert (Hsel : selectedFiles (removeFile index d)
                 = firstn index (selectedFiles d) ++ skipn (S index) (selectedFiles d)).
  { unfold removeFile, setSelectedFiles. cbn [selectedFiles].
    rewrite filter_index_removes. cbn [Nat.ltb Nat.leb]. rewrite Nat.sub_0_r. reflexivity. }
  split; [exact Hsel|]. split; [|split; [|split; [|split; reflexivity]]].
  - intros Hlt. rewrite Hsel, length_app, length_firstn, length_skipn. lia.
  - intros j. rewrite Hsel.
    destruct (Nat.ltb_spec j index) as [Hj|Hj].
    + destruct (Nat.lt_ge_cases j (List.length (selectedFiles d))) as [Hin|Hout].
      * rewrite nth_error_app1 by (rewrite length_firstn; lia).
        rewrite nth_error_firstn.
        destruct (Nat.ltb_spec j index); [reflexivity | lia].
      * rewrite (proj2 (nth_error_None (selectedFiles d) j)) by lia.
        apply nth_error_None. rewrite length_app, length_firstn, length_skipn. lia.
    + destruct (Nat.lt_ge_cases index (List.length (selectedFiles d))) as [Hin|Hout].
      * rewrite nth_error_app2 by (rewrite length_firstn; lia).
        rewrite length_firstn, nth_error_skipn. f_equal. lia.
      * rewrite (proj2 (nth_error_None (selectedFiles d) (S j))) by lia.
        apply nth_error_None. rewrite length_app, length_firstn, length_skipn. lia.
  - intros Hout. destruct d as [files desc analyses busy shown].
    unfold removeFile, setSelectedFiles. cbn [selectedFiles] in *. f_equal.
    rewrite filter_index_removes. cbn [Nat.ltb Nat.leb]. rewrite Nat.sub_0_r.
    rewrite firstn_all2 by exact Hout. rewrite skipn_all2 by lia. apply app_nil_r.
Qed.

Lemma analyzeSymptomsRoute_accepted (storage : Routes.Storage) (now : Z)
  (g : Gemini.Model) (dogId : string) (d : Routes.ClientSymptomData) (dog : Routes.Dog)
  (v : json) :
  dogId <> EmptyString ->
  Routes.getDog storage dogId = Routes.StorageResolves (Some dog) ->
  Gemini.accepted (g (Gemini.SymptomsRequest (Summary.symptomInput now dog d))) v ->
  Routes.analyzeSymptomsRoute storage now g dogId (Some d) = Routes.res_json 200 v.
Proof.
  intros Hid Hdog Hacc.
  rewrite (ServerExtraProps.analyzeSymptomsRoute_found storage now g dogId d dog Hid Hdog).
  apply ServerExtraProps.analyzeSymptoms_result in Hacc. rewrite Hacc. reflexivity.
Qed.

Lemma analyzeSymptomsRoute_refused (storage : Routes.Storage) (now : Z)
  (g : Gemini.Model) (dogId : string) (d : Routes.ClientSymptomData) (dog : Routes.Dog) :
  dogId <> EmptyString ->
  Routes.getDog storage dogId = Routes.StorageResolves (Some dog) ->
  Gemini.failureCause (g (Gemini.SymptomsRequest (Summary.symptomInput now dog d)))
  <> None ->
  Routes.analyzeSymptomsRoute storage now g dogId (Some d)
  = Routes.res_json 500 (Routes.errorBody "Failed to analyze symptoms").
Proof.
  intros Hid Hdog Hfail.
  rewrite (ServerExtraProps.analyzeSymptomsRoute_found storage now g dogId d dog Hid Hdog).
  rewrite GeminiProps.analyzeSymptoms_outcome.
  destruct (Gemini.failureCause
              (g (Gemini.SymptomsRequest (Summary.symptomInput now dog d))));
    [reflexivity | congruence].
Qed.

Section SymptomAnalysis.

Variable apiRequest : Assessment.ApiRequest.
Hypothesis apiRequest_rejects : Assessment.rejects_failures apiRequest.
Hypothesis apiRequest_passes : AssessmentUI.passes_success apiRequest.


End SymptomAnalysis.


End FormExtraProps.

(** ** The header, the subscription route and the upload route *)

Module ServiceProps.

Lemma before_at_has_no_at (text : string) :
  Assessment.occurs_in "@" (Header.before_at text) = false.
Proof.
  induction text as [|c rest IH]; cbn [Header.before_at]; [reflexivity|].
  destruct (Ascii.eqb_spec c "@"%char) as [->|Hne]; [reflexivity|].
  cbn [Assessment.occurs_in String.prefix].
  destruct (Ascii.ascii_dec "@"%char c) as [He|_]; [congruence|].
  cbn [orb]. exact IH.
Qed.


Import Subscription.

Lemma route_without_subscription (services : Services) (priceEnv : option string)
  (claims : Claims) (userEmail : string) :
  truthy (email claims) = Some userEmail ->
  (exists row sid,
     getUser services (sub claims) = Resolves (Some row)
     /\ truthy (stripeSubscriptionId row) = Some sid)
  \/ (exists message, getUser services (sub claims) = Rejects message
        /\ getOrCreateSubscription services priceEnv claims
           = (Routes.res_json 400 (errorMessageBody message), [GetUser (sub claims)]))
  \/ ((getUser services (sub claims) = Resolves None
       \/ exists row, getUser services (sub claims) = Resolves (Some row)
                      /\ truthy (stripeSubscriptionId row) = None)
      /\ getOrCreateSubscription services priceEnv claims
         = let price := match truthy priceEnv with
                        | Some p => p
                        | None => "price_development_testing"
                        end in
           match createCustomer services userEmail (customerName claims) with
           | Rejects message =>
               (Routes.res_json 400 (errorMessageBody message),
                [GetUser (sub claims); CreateCustomer userEmail (customerName claims)])
           | Resolves customer =>
               match createSubscription services customer price with
               | Rejects message =>
                   (Routes.res_json 400 (errorMessageBody message),
                    [GetUser (sub claims); CreateCustomer userEmail (customerName claims);
                     CreateSubscription customer price])
               | Resolves subscription =>
                   (match updateUserStripeInfo services (sub claims) customer
                            (id subscription) with
                    | Rejects message => Routes.res_json 400 (errorMessageBody message)
                    | Resolves _ => Routes.res_json 200 (subscriptionBody subscription)
                    end,
                    [GetUser (sub claims); CreateCustomer userEmail (customerName claims);
                     CreateSubscription customer price;
                     UpdateUserStripeInfo (sub claims) customer (id subscription)])
               end
           end).
Proof.
  intros Hmail. unfold getOrCreateSubscription. rewrite Hmail.
  destruct (getUser services (sub claims)) as [message|[row|]] eqn:Hget.
  - right. left. exists message. split; reflexivity.
  - destruct (truthy (stripeSubscriptionId row)) as [sid|] eqn:Hsid.
    + left. exists row, sid. split; [reflexivity | exact Hsid].
    + right. right. split; [right; exists row; split; [reflexivity | exact Hsid]|].
      cbn [call then_ ret]. rewrite Hsid. cbn [call then_ ret].
      destruct (createCustomer services userEmail (customerName claims)) as [m|customer];
        [reflexivity|].
      cbn [call then_ ret app].
      destruct (createSubscription services customer _) as [m|subscription];
        [reflexivity|].
      cbn [call then_ ret app].
      destruct (updateUserStripeInfo services (sub claims) customer (id subscription));
        reflexivity.
  - right. right. split; [left; reflexivity|].
    cbn [call then_ ret truthy].
    destruct (createCustomer services userEmail (customerName claims)) as [m|customer];
      [reflexivity|].
    cbn [call then_ ret app].
    destruct (createSubscription services customer _) as [m|subscription];
      [reflexivity|].
    cbn [call then_ ret app].
    destruct (updateUserStripeInfo services (sub claims) customer (id subscription));
      reflexivity.
Qed.

Lemma route_with_subscription (services : Services) (priceEnv : option string)
  (claims : Claims) (userEmail : string) (row : UserRow) (sid : string) :
  truthy (email claims) = Some userEmail ->
  getUser services (sub claims) = Resolves (Some row) ->
  truthy (stripeSubscriptionId row) = Some sid ->
  getOrCreateSubscription services priceEnv claims
  = (match retrieve services sid with
     | Rejects message => Routes.res_json 400 (errorMessageBody message)
     | Resolves subscription => Routes.res_json 200 (subscriptionBody subscription)
     end,
     [GetUser (sub claims); Retrieve sid]).
Proof.
  intros Hmail Hget Hsid. unfold getOrCreateSubscription. rewrite Hmail, Hget.
  cbn [call then_ ret]. rewrite Hsid. cbn [call then_ ret].
  destruct (retrieve services sid); reflexivity.
Qed.

(** X21.  A user who already has a subscription never gets a second one:
    when the user row holds a subscription identifier the route only reads
    the user and retrieves that subscription, and makes no creation at
    Stripe and no write to the storage; its reply carries the identifier of
    the retrieved subscription, or the message of the failed retrieval
    under status 400. *)
Theorem existing_subscription_is_reused :
  forall (services : Services) (priceEnv : option string) (claims : Claims)
         (userEmail : string) (row : UserRow) (sid : string),
    truthy (email claims) = Some userEmail ->
    getUser services (sub claims) = Resolves (Some row) ->
    truthy (stripeSubscriptionId row) = Some sid ->
    snd (getOrCreateSubscription services priceEnv claims)
    = [GetUser (sub claims); Retrieve sid]
    /\ existsb creates (snd (getOrCreateSubscription services priceEnv claims)) = false
    /\ existsb writes (snd (getOrCreateSubscription services priceEnv claims)) = false
    /\ (forall subscription,
          retrieve services sid = Resolves subscription ->
          fst (getOrCreateSubscription services priceEnv claims)
          = Routes.res_json 200 (subscriptionBody subscription))
    /\ (forall message,
          retrieve services sid = Rejects message ->
          fst (getOrCreateSubscription services priceEnv claims)
          = Routes.res_json 400 (errorMessageBody message)).
Proof.
  intros services priceEnv claims userEmail row sid Hmail Hget Hsid.
  rewrite (route_with_subscription services priceEnv claims userEmail row sid
             Hmail Hget Hsid).
  cbn [fst snd]. repeat split.
  - intros subscription ->. reflexivity.
  - intros message ->. reflexivity.
Qed.

(** X22.  The storage is written only with what Stripe returned: every
    write of the route records, for the signed-in user, the customer and the
    subscription that the two creations of the same request returned, and
    is the last of the four calls of that request. *)
Theorem user_is_written_after_creation :
  forall (services : Services) (priceEnv : option string) (claims : Claims)
         (userId customer subscriptionId : string),
    In (UpdateUserStripeInfo userId customer subscriptionId)
       (snd (getOrCreateSubscription services priceEnv claims)) ->
    userId = sub claims
    /\ exists userEmail price subscription,
         truthy (email claims) = Some userEmail
         /\ createCustomer services userEmail (customerName claims) = Resolves customer
         /\ createSubscription services customer price = Resolves subscription
         /\ subscriptionId = id subscription
         /\ snd (getOrCreateSubscription services priceEnv claims)
            = [GetUser (sub claims); CreateCustomer userEmail (customerName claims);
               CreateSubscription customer price;
               UpdateUserStripeInfo (sub claims) customer (id subscription)].
Proof.
  intros services priceEnv claims userId customer subscriptionId Hin.
  destruct (truthy (email claims)) as [userEmail|] eqn:Hmail.
  2: { unfold getOrCreateSubscription in Hin. rewrite Hmail in Hin. destruct Hin. }
  destruct (route_without_subscription services priceEnv claims userEmail Hmail)
    as [(row & sid & Hget & Hsid) | [(message & Hget & Hr) | (_ & Hr)]].
  - rewrite (route_with_subscription services priceEnv claims userEmail row sid
               Hmail Hget Hsid) in Hin.
    cbn [snd] in Hin. destruct Hin as [H|[H|[]]]; discriminate.
  - rewrite Hr in Hin. cbn [snd] in Hin. destruct Hin as [H|[]]; discriminate.
  - rewrite Hr in Hin |- *. cbv zeta in *.
    destruct (createCustomer services userEmail (customerName claims))
      as [m|newCustomer] eqn:Hc.
    { cbn [snd] in Hin. destruct Hin as [H|[H|[]]]; discriminate. }
    destruct (createSubscription services newCustomer _) as [m|subscription] eqn:Hs.
    { cbn [snd] in Hin. destruct Hin as [H|[H|[H|[]]]]; discriminate. }
    cbn [snd] in Hin |- *.
    destruct Hin as [H|[H|[H|[H|[]]]]]; try discriminate.
    injection H as <- <- <-. split; [reflexivity|].
    exists userEmail,
      (match truthy priceEnv with
       | Some p => p
       | None => "price_development_testing"
       end), subscription.
    repeat split; try reflexivity; assumption.
Qed.

(** Services of a scenario: the user has no subscription yet, Stripe creates
    what it is asked, and the storage accepts or refuses the write. *)
Lemma existing_subscription_is_reused_witness :
  snd (getOrCreateSubscription
         (mkServices
            (fun _ => Resolves (Some (mkUserRow (Some "sub_1"))))
            (fun sid => Resolves (mkStripeSubscription sid (Some "secret")))
            (fun _ _ => Resolves "cus_1")
            (fun _ _ => Resolves (mkStripeSubscription "sub_2" None))
            (fun _ _ _ => Resolves tt))
         None (mkClaims "user-1" (Some "ann@example.org") (Some "Ann") None))
  = [GetUser "user-1"; Retrieve "sub_1"].
Proof.
  apply (existing_subscription_is_reused _ None
           (mkClaims "user-1" (Some "ann@example.org") (Some "Ann") None)
           "ann@example.org" (mkUserRow (Some "sub_1")) "sub_1");
    reflexivity.
Defined.

Lemma user_is_written_after_creation_witness :
  existsb writes
    (snd (getOrCreateSubscription
            (mkServices
               (fun _ => Resolves None)
               (fun sid => Resolves (mkStripeSubscription sid (Some "secret")))
               (fun _ _ => Resolves "cus_1")
               (fun _ _ => Resolves (mkStripeSubscription "sub_2" None))
               (fun _ _ _ => Rejects "connection lost"))
            None (mkClaims "user-1" (Some "ann@example.org") (Some "Ann") None)))
  = true.
Proof.
  destruct (user_is_written_after_creation
              (mkServices
                 (fun _ => Resolves None)
                 (fun sid => Resolves (mkStripeSubscription sid (Some "secret")))
                 (fun _ _ => Resolves "cus_1")
                 (fun _ _ => Resolves (mkStripeSubscription "sub_2" None))
                 (fun _ _ _ => Rejects "connection lost"))
              None (mkClaims "user-1" (Some "ann@example.org") (Some "Ann") None)
              "user-1" "cus_1" "sub_2")
    as (_ & userEmail & price & subscription & _ & _ & _ & _ & Htrace).
  - cbn. auto.
  - rewrite Htrace. reflexivity.
Defined.

(** X23.  The replies of the subscription route.  Without an e-mail address
    in the claims it answers 400 before calling anything, and only then is
    its trace empty; it answers 200 or 400 and nothing else; a 200 reply
    after a creation means the write to the storage was made; and when both
    creations succeed but the write is refused, the reply is 400 with the
    message of the refusal although the subscription now exists at Stripe. *)
Theorem subscription_route_replies :
  forall (services : Services) (priceEnv : option string) (claims : Claims),
    (truthy (email claims) = None ->
     getOrCreateSubscription services priceEnv claims
     = (Routes.res_json 400 (errorMessageBody "No user email on file"), []))
    /\ (snd (getOrCreateSubscription services priceEnv claims) = [] ->
        truthy (email claims) = None)
    /\ In (Routes.status (fst (getOrCreateSubscription services priceEnv claims)))
          [200; 400]
    /\ (Routes.status (fst (getOrCreateSubscription services priceEnv claims)) = 200 ->
        existsb creates (snd (getOrCreateSubscription services priceEnv claims)) = true ->
        existsb writes (snd (getOrCreateSubscription services priceEnv claims)) = true)
    /\ (forall userEmail customer price subscription message,
          truthy (email claims) = Some userEmail ->
          existsb creates (snd (getOrCreateSubscription services priceEnv claims)) = true ->
          createCustomer services userEmail (customerName claims) = Resolves customer ->
          price = match truthy priceEnv with
                  | Some p => p
                  | None => "price_development_testing"
                  end ->
          createSubscription services customer price = Resolves subscription ->
          updateUserStripeInfo services (sub claims) customer (id subscription)
          = Rejects message ->
          fst (getOrCreateSubscription services priceEnv claims)
          = Routes.res_json 400 (errorMessageBody message)
          /\ In (CreateSubscription customer price)
               (snd (getOrCreateSubscription services priceEnv claims))).
Proof.
  intros services priceEnv claims.
  destruct (truthy (email claims)) as [userEmail|] eqn:Hmail.
  2: { unfold getOrCreateSubscription. rewrite Hmail. cbn.
       repeat split; auto; try discriminate. }
  split; [discriminate|].
  destruct (route_without_subscription services priceEnv claims userEmail Hmail)
    as [(row & sid & Hget & Hsid) | [(message & Hget & Hr) | (_ & Hr)]].
  - rewrite (route_with_subscription services priceEnv claims userEmail row sid
               Hmail Hget Hsid).
    cbn [fst snd]. split; [discriminate|]. split; [|split].
    + destruct (retrieve services sid); cbn; auto.
    + intros _ H. discriminate H.
    + intros e c p s m _ H. discriminate H.
  - rewrite Hr. cbn [fst snd]. split; [discriminate|]. split; [cbn; auto|]. split.
    + intros H. discriminate H.
    + intros e c p s m _ H. discriminate H.
  - rewrite Hr. cbv zeta.
    destruct (createCustomer services userEmail (customerName claims))
      as [m|customer] eqn:Hc.
    { cbn [fst snd]. split; [discriminate|]. split; [cbn; auto|]. split.
      - intros H. discriminate H.
      - intros e c p s m' He _ Hc'. injection He as <-. congruence. }
    destruct (createSubscription services customer _) as [m|subscription] eqn:Hs.
    { cbn [fst snd]. split; [discriminate|]. split; [cbn; auto|]. split.
      - intros H. discriminate H.
      - intros e c p s m' He _ Hc' -> Hs'. injection He as <-.
        rewrite Hc in Hc'. injection Hc' as <-. congruence. }
    cbn [fst snd]. split; [discriminate|]. split; [|split].
    + destruct (updateUserStripeInfo services (sub claims) customer (id subscription));
        cbn; auto.
    + intros _ _. reflexivity.
    + intros e c p s m' He _ Hc' -> Hs' Hu. injection He as <-.
      rewrite Hc in Hc'. injection Hc' as <-.
      rewrite Hs in Hs'. injection Hs' as <-.
      rewrite Hu. split; [reflexivity|]. cbn. auto.
Qed.

Lemma trim_start_head (l : list ascii) :
  trim_start l = []
  \/ exists c rest, trim_start l = c :: rest /\ Json.is_js_ws c = false.
Proof.
  induction l as [|c l IH]; cbn [trim_start]; [left; reflexivity|].
  destruct (Json.is_js_ws c) eqn:Hc; [exact IH|].
  right. exists c, l. split; [reflexivity | exact Hc].
Qed.

Lemma trim_start_fixed (l : list ascii) :
  match l with
  | [] => True
  | c :: _ => Json.is_js_ws c = false
  end ->
  trim_start l = l.
Proof.
  destruct l as [|c l]; [reflexivity|]. cbn [trim_start]. intros ->. reflexivity.
Qed.

Lemma trim_start_suffix (l : list ascii) :
  exists blanks, l = blanks ++ trim_start l.
Proof.
  induction l as [|c l (blanks & IH)]; cbn [trim_start]; [exists []; reflexivity|].
  destruct (Json.is_js_ws c).
  - exists (c :: blanks). cbn [app]. f_equal. exact IH.
  - exists []. reflexivity.
Qed.

Lemma trimmed_is_fixed (l : list ascii) :
  let t := rev (trim_start (rev (trim_start l))) in
  trim_start t = t /\ trim_start (rev t) = rev t.
Proof.
  cbv zeta. set (m := trim_start l).
  assert (Hm : match m with [] => True | c :: _ => Json.is_js_ws c = false end).
  { unfold m. destruct (trim_start_head l) as [->|(c & rest & -> & Hc)]; [exact I | exact Hc]. }
  split.
  - destruct (trim_start_suffix (rev m)) as (blanks & Hb).
    assert (Hprefix : m = rev (trim_start (rev m)) ++ rev blanks).
    { rewrite <- rev_app_distr, <- Hb, rev_involutive. reflexivity. }
    apply trim_start_fixed.
    destruct (rev (trim_start (rev m))) as [|c t]; [exact I|].
    rewrite Hprefix in Hm. exact Hm.
  - rewrite rev_involutive. apply trim_start_fixed.
    destruct (trim_start_head (rev m)) as [->|(c & rest & -> & Hc)]; [exact I | exact Hc].
Qed.

Lemma trim_start_length (l : list ascii) :
  List.length (trim_start l) <= List.length l.
Proof.
  induction l as [|c l IH]; cbn [trim_start List.length]; [lia|].
  destruct (Json.is_js_ws c); cbn [List.length]; lia.
Qed.

Lemma fixed_head (l : list ascii) :
  trim_start l = l ->
  match l with
  | [] => True
  | c :: _ => Json.is_js_ws c = false
  end.
Proof.
  destruct l as [|c l]; [exact (fun _ => I)|]. cbn [trim_start].
  destruct (Json.is_js_ws c); [|reflexivity].
  intros H. pose proof (trim_start_length l) as Hlen. rewrite H in Hlen.
  cbn [List.length] in Hlen. lia.
Qed.

Lemma trim_fixed_ends (s : string) :
  trim s = s ->
  trim_start (list_ascii_of_string s) = list_ascii_of_string s
  /\ trim_start (rev (list_ascii_of_string s)) = rev (list_ascii_of_string s).
Proof.
  intros H. apply (f_equal list_ascii_of_string) in H. unfold trim in H.
  rewrite list_ascii_of_string_of_list_ascii in H.
  destruct (trimmed_is_fixed (list_ascii_of_string s)) as [H1 H2].
  rewrite H in H1, H2. split; assumption.
Qed.

Lemma list_ascii_of_string_app (a b : string) :
  list_ascii_of_string (a ++ b) = list_ascii_of_string a ++ list_ascii_of_string b.
Proof. induction a as [|c a IH]; cbn; [reflexivity | f_equal; exact IH]. Qed.

Lemma trim_joined (first last : string) :
  first <> EmptyString -> last <> EmptyString ->
  trim first = first -> trim last = last ->
  trim (first ++ " " ++ last) = (first ++ " " ++ last)%string.
Proof.
  intros Hf Hl Htf Htl.
  destruct (trim_fixed_ends first Htf) as [Hf1 _].
  destruct (trim_fixed_ends last Htl) as [_ Hl2].
  apply fixed_head in Hf1. apply fixed_head in Hl2.
  unfold trim. rewrite !list_ascii_of_string_app.
  set (f := list_ascii_of_string first) in *.
  set (l := list_ascii_of_string last) in *.
  assert (Hfne : f <> []).
  { unfold f. destruct first; [congruence | discriminate]. }
  assert (Hlne : rev l <> []).
  { unfold l. destruct last as [|c r]; [congruence|]. cbn.
    intros H. apply (f_equal (@List.length ascii)) in H.
    rewrite length_app in H. cbn in H. lia. }
  rewrite (trim_start_fixed (f ++ list_ascii_of_string " " ++ l)).
  2: { destruct f as [|c f']; [congruence | exact Hf1]. }
  rewrite !rev_app_distr.
  rewrite (trim_start_fixed ((rev l ++ rev (list_ascii_of_string " ")) ++ rev f)).
  2: { destruct (rev l) as [|c l']; [congruence | exact Hl2]. }
  rewrite <- !rev_app_distr, rev_involutive. subst f l.
  rewrite <- !list_ascii_of_string_app. apply string_of_list_ascii_of_string.
Qed.

(** X24.  The name given to a new Stripe customer is never blank: it is
    undefined when neither a first nor a last name is known, and otherwise a
    text that is not empty and that trimming leaves unchanged (no white
    space at either end); with both names clean it is the first name, a
    space, and the last name. *)
Theorem customerName_is_trimmed :
  forall claims : Claims,
    customerName claims <> Some EmptyString
    /\ (forall name, customerName claims = Some name -> trim name = name)
    /\ (truthy (first_name claims) = None -> truthy (last_name claims) = None ->
        customerName claims = None)
    /\ (forall first last,
          truthy (first_name claims) = Some first ->
          truthy (last_name claims) = Some last ->
          trim first = first -> trim last = last ->
          customerName claims = Some (first ++ " " ++ last)%string).
Proof.
  intros claims. unfold customerName.
  set (full := (or_empty (first_name claims) ++ " " ++ or_empty (last_name claims))%string).
  split; [|split; [|split]].
  - unfold truthy. destruct (String.eqb_spec (trim full) EmptyString); congruence.
  - intros name. unfold truthy.
    destruct (String.eqb_spec (trim full) EmptyString); [discriminate|].
    intros H. injection H as <-. unfold trim at 1 3.
    destruct (trimmed_is_fixed (list_ascii_of_string full)) as [H1 H2].
    unfold trim. rewrite list_ascii_of_string_of_list_ascii.
    rewrite H1, H2, rev_involutive. reflexivity.
  - intros Hf Hl. unfold full, or_empty. rewrite Hf, Hl. reflexivity.
  - intros first last Hf Hl Htf Htl. unfold full, or_empty. rewrite Hf, Hl.
    assert (Hne : first <> EmptyString).
    { unfold truthy in Hf. destruct (first_name claims) as [s|]; [|discriminate].
      destruct (String.eqb_spec s EmptyString); [discriminate | congruence]. }
    assert (Hnl : last <> EmptyString).
    { unfold truthy in Hl. destruct (last_name claims) as [s|]; [|discriminate].
      destruct (String.eqb_spec s EmptyString); [discriminate | congruence]. }
    assert (Htrim : trim (first ++ " " ++ last) = (first ++ " " ++ last)%string).
    { apply trim_joined; assumption. }
    rewrite Htrim. unfold truthy.
    destruct (String.eqb_spec (first ++ " " ++ last)%string EmptyString) as [He|_];
      [|reflexivity].
    destruct first; [congruence | discriminate He].
Qed.

Lemma uploadAll_outcome (services : PhotoUpload.Services) (userId : string)
  (files : list PhotoUpload.Photo) :
  forall uploadedPhotos,
    (forall urls,
       fst (PhotoUpload.uploadAll services userId files uploadedPhotos) = Ok urls ->
       exists new,
         urls = uploadedPhotos ++ new
         /\ List.length new = List.length files
         /\ List.length (snd (PhotoUpload.uploadAll services userId files uploadedPhotos))
            = 2 * List.length files)
    /\ (forall message,
          fst (PhotoUpload.uploadAll services userId files uploadedPhotos) = Err message ->
          snd (PhotoUpload.uploadAll services userId files uploadedPhotos) <> [])
    /\ Forall (fun c =>
                 match c with
                 | PhotoUpload.UploadFile photo => In photo files
                 | PhotoUpload.SetPrivateAcl objectPath owner =>
                     owner = userId
                     /\ exists photo,
                          In photo files
                          /\ PhotoUpload.uploadFile services photo = Resolves objectPath
                 end)
              (snd (PhotoUpload.uploadAll services userId files uploadedPhotos)).
Proof.
  induction files as [|photo rest IH]; intros acc; cbn [PhotoUpload.uploadAll].
  - cbn. split; [|split; [discriminate | constructor]].
    intros urls H. injection H as <-. exists []. rewrite app_nil_r. auto.
  - destruct (PhotoUpload.uploadFile services photo) as [m|objectPath] eqn:Hup;
      cbn [call then_ fst snd].
    { split; [discriminate|]. split; [discriminate|].
      constructor; [now left | constructor]. }
    destruct (PhotoUpload.trySetObjectEntityAclPolicy services objectPath userId)
      as [m|finalPath] eqn:Hacl; cbn [call then_ fst snd app].
    { split; [discriminate|]. split; [discriminate|].
      constructor; [now left|]. constructor; [|constructor].
      split; [reflexivity|]. exists photo. split; [now left | exact Hup]. }
    destruct (IH (acc ++ [finalPath])) as (Hok & Herr & Hcalls).
    destruct (PhotoUpload.uploadAll services userId rest (acc ++ [finalPath]))
      as [outcome made]. cbn [fst snd] in *.
    split; [|split].
    + intros urls H. destruct (Hok urls H) as (new & -> & Hlen & Hmade).
      exists (finalPath :: new). rewrite <- app_assoc. cbn [app List.length].
      repeat split; lia.
    + intros message _. discriminate.
    + constructor; [now left|]. constructor.
      * split; [reflexivity|]. exists photo. split; [now left | exact Hup].
      * eapply Forall_impl; [|exact Hcalls].
        intros [p|path owner]; [intros H; now right|].
        intros (Ho & p & Hin & Hp). split; [exact Ho|]. exists p. split; [now right | exact Hp].
Qed.

(** X25.  The upload route answers all or nothing: 400 without having
    called anything when no file came with the request; 200 with exactly one
    address per file, after one upload and one access-policy call per file;
    and 500 with only the fixed error message, no address, as soon as one
    call fails, the calls made until then staying made.  Every access policy
    is set for the signed-in user on a path that the upload of one of the
    files returned. *)
Theorem uploadHealthPhotos_all_or_nothing :
  forall (services : PhotoUpload.Services) (userId : string)
         (files : option (list PhotoUpload.Photo)),
    In (Routes.status (fst (PhotoUpload.uploadHealthPhotos services userId files)))
       [200; 400; 500]
    /\ (files = None \/ files = Some [] ->
        PhotoUpload.uploadHealthPhotos services userId files
        = (Routes.res_json 400 (Routes.errorBody "No files uploaded"), []))
    /\ (Routes.status (fst (PhotoUpload.uploadHealthPhotos services userId files)) = 200 ->
        exists photos urls,
          files = Some photos
          /\ fst (PhotoUpload.uploadHealthPhotos services userId files)
             = Routes.res_json 200 (PhotoUpload.photoUrlsBody urls)
          /\ List.length urls = List.length photos
          /\ List.length (snd (PhotoUpload.uploadHealthPhotos services userId files))
             = 2 * List.length photos)
    /\ (Routes.status (fst (PhotoUpload.uploadHealthPhotos services userId files)) = 500 ->
        fst (PhotoUpload.uploadHealthPhotos services userId files)
        = Routes.res_json 500 (Routes.errorBody "Failed to upload photos")
        /\ snd (PhotoUpload.uploadHealthPhotos services userId files) <> [])
    /\ Forall (fun c =>
                 match c with
                 | PhotoUpload.UploadFile photo =>
                     exists photos, files = Some photos /\ In photo photos
                 | PhotoUpload.SetPrivateAcl objectPath owner =>
                     owner = userId
                     /\ exists photos photo,
                          files = Some photos /\ In photo photos
                          /\ PhotoUpload.uploadFile services photo = Resolves objectPath
                 end)
              (snd (PhotoUpload.uploadHealthPhotos services userId files)).
Proof.
  intros services userId files.
  destruct files as [[|photo rest]|];
    try (cbn; repeat split; auto; try discriminate; constructor).
  unfold PhotoUpload.uploadHealthPhotos.
  destruct (uploadAll_outcome services userId (photo :: rest) []) as (Hok & Herr & Hcalls).
  destruct (PhotoUpload.uploadAll services userId (photo :: rest) []) as [outcome made].
  cbn [fst snd] in *.
  split; [destruct outcome; cbn; auto|].
  split; [intros [H|H]; discriminate|].
  split; [|split].
  - destruct outcome as [urls|m]; [|discriminate]. intros _.
    destruct (Hok urls eq_refl) as (new & -> & Hlen & Hmade).
    exists (photo :: rest), new. auto.
  - destruct outcome as [urls|m]; [discriminate|]. intros _.
    split; [reflexivity | exact (Herr m eq_refl)].
  - eapply Forall_impl; [|exact Hcalls].
    intros [p|path owner].
    + intros Hin. exists (photo :: rest). auto.
    + intros (Ho & p & Hin & Hp). split; [exact Ho|].
      exists (photo :: rest), p. auto.
Qed.

End ServiceProps.
